(** * A shallow embedding of the Reddit data pipeline

  The development follows the two source files of the repository:
  - [src/reddit_data/utils.py]: [calculate_average], [format_currency];
  - [src/data_pipeline.py]: [load_to_sqlite], [count_posts_comments],
    [clean_comments], [merge_submissions_comments].

  Python integers are modelled by [Z], a Python float by the rational
  number it denotes (or one of the special values), strings by [string],
  the dictionary of currency symbols, the file system and the SQLite store
  by finite maps, and a pandas [DataFrame] by its list of labelled columns.
  Exceptions are values of type [error] carried by the [result] monad.
  [calculate_average] is left out: its result is produced by the float
  accumulation of [sum] and by a rounded division. *)

From Stdlib Require Import ZArith QArith Qabs String Ascii List Lia.
From Stdlib Require Import DecimalString DecimalPos DecimalN.
From stdpp Require Import base option list strings gmap.

Set Default Proof Using "Type".

(** ** Exceptions and the error monad *)

(** The Python exceptions the pipeline can raise. *)
Inductive error : Type :=
| FileNotFoundError
| KeyError (label : string)
| TypeError
| ValueError
| AttributeError
| MergeError
| DatabaseError
| OverflowError.

Inductive result (A : Type) : Type :=
| Ok (a : A)
| Err (e : error).

Arguments Ok {A} a.
Arguments Err {A} e.

Definition bind {A B : Type} (r : result A) (k : A -> result B) : result B :=
match r with
| Ok a => k a
| Err e => Err e
end.

Notation "x <- r ;; k" := (bind r (fun x => k))
  (at level 100, r at next level, right associativity, only parsing).

(** A function applied to the elements from first to last; the first
    exception aborts the traversal. *)
Fixpoint mapM {A B : Type} (f : A -> result B) (l : list A) : result (list B) :=
match l with
| [] => Ok []
| x :: l' => y <- f x ;; ys <- mapM f l' ;; Ok (y :: ys)
end.

(** ** Utility helpers: [src/reddit_data/utils.py] *)

Module Utils.

(** A Python [float]: a finite binary64 number, given by the rational
    number it denotes, the negative zero, an infinity or a NaN. *)
Inductive pyfloat : Type :=
| Finite (q : Q)
| NegativeZero
| Infinity (negative : bool)
| NaN.

(** The [amount] of [format_currency]: an [int] or a [float]. *)
Inductive number : Type :=
| PyInt (n : Z)
| PyFloat (x : pyfloat).

(** The literal [symbols = {"USD": "$", "EUR": "€", "GBP": "£"}]. *)
Definition symbols : gmap string string :=
  <["USD" := "$"]> (<["EUR" := "€"]> (<["GBP" := "£"]> ∅)).

(** [symbols.get(currency, "$")] *)
Definition symbol_of (currency : string) : string :=
  default "$" (symbols !! currency).

(** Rounding to the nearest integer, ties to the even neighbour. *)
Definition round_half_even (q : Q) : Z :=
  let n := Qnum q in
  let d := Zpos (Qden q) in
  let f := (n / d)%Z in
  let r := (n mod d)%Z in
  if (2 * r <? d)%Z then f
  else if (d <? 2 * r)%Z then (f + 1)%Z
  else if Z.even f then f else (f + 1)%Z.

(** [float(n)], which the format specifier [.2f] applies to an [int]:
    the binary64 number nearest to [n], that is [n] rounded to 53
    significant bits, ties to even; [OverflowError] when the rounded
    value reaches [2 ^ 1024]. *)
Definition float_of_int (n : Z) : result pyfloat :=
  let m := Z.abs n in
  let e := Z.max 0 (Z.log2 m - 52) in
  let v := (round_half_even (m # Z.to_pos (2 ^ e)) * 2 ^ e)%Z in
  if (2 ^ 1024 <=? v)%Z then Err OverflowError
  else Ok (Finite (inject_Z (Z.sgn n * v))).

Definition digit (n : Z) : ascii := ascii_of_nat (48 + Z.to_nat n).

Definition is_digit (c : ascii) : Prop :=
  (48 <= nat_of_ascii c <= 57)%nat.

Definition decimal_of_Z (n : Z) : string :=
  NilZero.string_of_uint (N.to_uint (Z.to_N n)).

(** Reading a printed number back: the digits of a string, the value of
    a string of digits and of a digit. *)
Definition all_digits (s : string) : Prop :=
  Forall is_digit (list_ascii_of_string s).

Definition decimal_value (s : string) : option Z :=
  (fun d => Z.of_N (N.of_uint d)) <$> NilZero.uint_of_string s.

Definition digit_value (c : ascii) : Z := (Z.of_nat (nat_of_ascii c) - 48)%Z.

(** [f"{x:.2f}"] for a float: the decimal expansion of the number that
    the float denotes, correctly rounded to two digits after the point
    (ties to even), with a minus sign when the sign bit is set; the
    special values print as words. *)
Definition format_2f (x : pyfloat) : string :=
  match x with
  | Finite q =>
      let cents := Z.abs (round_half_even (q * 100)%Q) in
      ((if (Qnum q <? 0)%Z then "-" else "")
         +:+ decimal_of_Z (cents / 100)
         +:+ "."
         +:+ String (digit ((cents mod 100) / 10))
               (String (digit ((cents mod 100) mod 10)) ""))%string
  | NegativeZero => "-0.00"
  | Infinity negative => if negative then "-inf" else "inf"
  | NaN => "nan"
  end.

(** [format_currency(amount, currency="USD")] *)
Definition format_currency (amount : number) (currency : string) : result string :=
  x <- match amount with
       | PyInt n => float_of_int n
       | PyFloat x => Ok x
       end ;;
  Ok (symbol_of currency +:+ format_2f x).

End Utils.

(** ** Tables *)

(** A value of a table: an integer, a string, a missing value ([NaN],
    SQL [NULL]) or a timezone-aware UTC timestamp, given by its number of
    seconds since the epoch.  Non-integral floating-point values are not
    modelled. *)
Inductive cell : Type :=
| CInt (z : Z)
| CStr (s : string)
| CNaN
| CTime (t : Z).

#[export] Instance cell_eq_dec : EqDecision cell.
Proof. solve_decision. Defined.

Abbreviation Series := (list cell).

(** A [DataFrame]: the length of its index and its labelled columns, in
    order. *)
Record DataFrame : Type := mkDataFrame {
  nrows : nat;
  data : list (string * Series)
}.

(** [df.columns] *)
Definition labels (df : DataFrame) : list string := (data df).*1.

(** Frames as [read_csv] builds them: distinct labels, and every column as
    long as the index. *)
Definition well_formed (df : DataFrame) : Prop :=
NoDup (labels df) /\ Forall (fun c => length c.2 = nrows df) (data df).

(** [df[label]] *)
Definition getitem (df : DataFrame) (label : string) : result Series :=
match list_find (fun c => c.1 = label) (data df) with
| Some (_, c) => Ok c.2
| None => Err (KeyError label)
end.

(** [df[label] = values]: an existing column is overwritten in place, a
    new one is appended as the last column. *)
Definition setitem (df : DataFrame) (label : string) (values : Series) : DataFrame :=
if bool_decide (label ∈ labels df)
then mkDataFrame (nrows df)
       ((fun c => if bool_decide (c.1 = label) then (label, values) else c) <$> data df)
else mkDataFrame (nrows df) (data df ++ [(label, values)]).

Inductive errors_mode : Type := Raise | Ignore.

(** [df.drop(columns=names, errors=mode)] *)
Definition drop (names : list string) (mode : errors_mode) (df : DataFrame)
  : result DataFrame :=
match mode, list_find (fun n => n ∉ labels df) names with
| Raise, Some (_, n) => Err (KeyError n)
| _, _ => Ok (mkDataFrame (nrows df) (filter (fun c => c.1 ∉ names) (data df)))
end.

(** The file system, as far as the pipeline reads it: the table that
    [pd.read_csv] parses from each readable path. *)
Abbreviation files := (gmap string DataFrame).

(** [pd.read_csv(path, low_memory=False)] *)
Definition read_csv (fs : files) (path : string) : result DataFrame :=
match fs !! path with
| Some df => Ok df
| None => Err FileNotFoundError
end.

(** ** Regular expressions and [Series.str.replace] *)

(** The fragment of Python's [re] syntax that the pipeline uses: a
    pattern is a sequence of items, each a character class matched once
    or, under [+], one or more times (greedily, with backtracking). *)
Inductive charclass : Type :=
| Char (c : ascii)
| Digit.

Inductive item : Type :=
| One (cls : charclass)
| Many1 (cls : charclass).

Definition in_class (cls : charclass) (c : ascii) : bool :=
match cls with
| Char c' => Ascii.eqb c' c
| Digit => (48 <=? nat_of_ascii c)%nat && (nat_of_ascii c <=? 57)%nat
end.

(** [match_here p s]: the number of characters of the match of [p] at
    the start of [s], if there is one. *)
Fixpoint match_here (p : list item) : string -> option nat :=
match p with
| [] => fun _ => Some 0%nat
| One cls :: p' => fun s =>
    match s with
    | String c s' => if in_class cls c then S <$> match_here p' s' else None
    | EmptyString => None
    end
| Many1 cls :: p' =>
    fix many (s : string) : option nat :=
      match s with
      | String c s' =>
          if in_class cls c
          then match many s' with
               | Some n => Some (S n)
               | None => S <$> match_here p' s'
               end
          else None
      | EmptyString => None
      end
end.

(** [re.sub(p, "", s)]: every non-overlapping match, found from left to
    right, is deleted.  [skip] counts the characters of the current match
    that remain to be deleted. *)
Fixpoint delete_from (p : list item) (skip : nat) (s : string) : string :=
match s with
| EmptyString => EmptyString
| String c s' =>
    match skip with
    | S k => delete_from p k s'
    | O =>
        match match_here p s with
        | Some (S k) => delete_from p k s'
        | _ => String c (delete_from p 0 s')
        end
    end
end.

Definition re_delete (p : list item) (s : string) : string := delete_from p 0 s.

(** The pattern of the source, [r"t\\d+_"].  In a raw string the two
    backslashes stay two characters, which [re] reads as an escaped
    backslash: the pattern is the letter [t], a backslash, one or more
    letters [d], and an underscore. *)
Definition parent_prefix_pattern : list item :=
[One (Char "t"); One (Char "\"); Many1 (Char "d"); One (Char "_")].

(** The pattern that the comment of the source describes, [r"t\d+_"]:
    [t], one or more digits, an underscore. *)
Definition intended_prefix_pattern : list item :=
[One (Char "t"); Many1 Digit; One (Char "_")].

(** The substitution applied to one parent identifier. *)
Definition normalize_parent_id (s : string) : string :=
re_delete parent_prefix_pattern s.

Definition is_str (c : cell) : bool :=
match c with CStr _ => true | _ => false end.

(** The [.str] accessor exists on columns of strings only: [read_csv]
    gives a column the [object] dtype when it holds a string (or has no
    row), a numeric dtype otherwise. *)
Definition object_dtype (s : Series) : bool :=
match s with [] => true | _ => existsb is_str s end.

(** [s.str.replace(p, "", regex=True)]: strings are rewritten, every
    other entry becomes missing. *)
Definition str_replace (p : list item) (s : Series) : result Series :=
if object_dtype s
then Ok ((fun c => match c with CStr x => CStr (re_delete p x) | _ => CNaN end) <$> s)
else Err AttributeError.

(** ** Timestamps *)

(** The year of the day with proleptic Gregorian ordinal [n] (day 1 is
    0001-01-01), as [datetime] computes it. *)
Definition ord2year (n : Z) : Z :=
(let n := n - 1 in
 let n400 := n / 146097 in
 let n := n mod 146097 in
 let n100 := n / 36524 in
 let n := n mod 36524 in
 let n4 := n / 1461 in
 let n := n mod 1461 in
 let n1 := n / 365 in
 let year := n400 * 400 + 1 + n100 * 100 + n4 * 4 + n1 in
 if (n1 =? 4) || (n100 =? 4) then year - 1 else year)%Z.

(** The UTC calendar year of an epoch time in seconds. *)
Definition year_of_epoch (t : Z) : Z := ord2year (t / 86400 + 719163)%Z.

(** The epoch seconds of 0001-01-01T00:00:00Z and 9999-12-31T23:59:59Z,
    the range of [datetime]. *)
Definition min_epoch : Z := (-62135596800)%Z.
Definition max_epoch : Z := 253402300799%Z.

(** [lambda x: datetime.fromtimestamp(x, tz=timezone.utc)].  An integer
    in range gives an aware timestamp; a string raises [TypeError], a
    missing value [ValueError], and so does an integer whose year falls
    outside 1..9999 (for very large magnitudes Python reports
    [OverflowError] or [OSError] instead, which the model does not tell
    apart). *)
Definition fromtimestamp (x : cell) : result cell :=
match x with
| CInt z => if ((min_epoch <=? z) && (z <=? max_epoch))%Z then Ok (CTime z) else Err ValueError
| CNaN => Err ValueError
| CStr _ => Err TypeError
| CTime _ => Err TypeError
end.

(** [s.apply(f)] *)
Definition series_apply (f : cell -> result cell) (s : Series) : result Series := mapM f s.

(** The bound of [datetime64[ns]], in whole seconds. *)
Definition ns_bound : Z := 9223372036%Z.

Definition is_timestamp (c : cell) : bool :=
match c with
| CTime t => ((- ns_bound <=? t) && (t <=? ns_bound))%Z
| _ => false
end.

(** [s.dt.year].  The accessor exists on datetime-like columns only: a
    column built from aware timestamps has the dtype [datetime64[ns, UTC]]
    when it is not empty and all its values fit 64-bit nanoseconds. *)
Definition dt_year (s : Series) : result Series :=
match s with
| [] => Err AttributeError
| _ =>
    if forallb is_timestamp s
    then Ok ((fun c => match c with CTime t => CInt (year_of_epoch t) | _ => CNaN end) <$> s)
    else Err AttributeError
end.

(** ** The Cleaner *)

Definition author_flair : list string :=
["author_flair_text"; "author_flair_type";
 "author_flair_template_id"; "author_flair_richtext"].

(** [clean_comments(comment_path)].  The two [print] calls report the
    earliest and latest timestamp and have no effect on the result. *)
Definition clean_comments (fs : files) (comment_path : string) : result DataFrame :=
comments <- read_csv fs comment_path ;;
comments <- drop author_flair Ignore comments ;;
created_utc <- getitem comments "created_utc" ;;
created_time <- series_apply fromtimestamp created_utc ;;
let comments := setitem comments "created_time" created_time in
created_time <- getitem comments "created_time" ;;
year <- dt_year created_time ;;
let comments := setitem comments "year" year in
Ok comments.

(** ** [pd.merge] *)

(** The positions, counted from [j], of the entries of [rk] equal to the
    key [k].  A missing key matches a missing key, as in pandas. *)
Fixpoint positions (k : cell) (rk : Series) (j : nat) : list nat :=
match rk with
| [] => []
| c :: rk' =>
    if decide (c = k) then j :: positions k rk' (S j) else positions k rk' (S j)
end.

(** The pairs of left row [i], given the positions [js] of the right rows
    with its key: one pair for each of them, or the row alone when there is
    none. *)
Definition left_block (i : nat) (js : list nat) : list (option nat * option nat) :=
match js with
| [] => [(Some i, None)]
| _ => (fun j => (Some i, Some j)) <$> js
end.

(** The pairs of an outer join that have a left row, in the order of the
    left rows. *)
Fixpoint left_indexers (lk rk : Series) (i : nat) : list (option nat * option nat) :=
match lk with
| [] => []
| c :: lk' => left_block i (positions c rk 0) ++ left_indexers lk' rk (S i)
end.

(** The right rows whose key occurs in no left row. *)
Fixpoint right_only (lk rk : Series) (j : nat) : list (option nat * option nat) :=
match rk with
| [] => []
| c :: rk' =>
    (if decide (c ∈ lk) then [] else [(None, Some j)]) ++ right_only lk rk' (S j)
end.

(** The row pairs of an outer join, before they are put in order. *)
Definition join_pairs (lk rk : Series) : list (option nat * option nat) :=
left_indexers lk rk 0 ++ right_only lk rk 0.

(** The order in which pandas sorts key values: numbers before strings,
    each kind in its own order (strings by code point), missing keys
    last. *)
Definition cell_rank (c : cell) : nat :=
match c with
| CInt _ => 0
| CStr _ => 1
| CTime _ => 2
| CNaN => 3
end.

Definition cell_leb (a b : cell) : bool :=
match a, b with
| CInt x, CInt y => (x <=? y)%Z
| CStr x, CStr y => String.leb x y
| CTime x, CTime y => (x <=? y)%Z
| _, _ => (cell_rank a <=? cell_rank b)%nat
end.

(** The key of a row pair: the key of its left row, or of its right row
    when it has no left row. *)
Definition pair_key (lk rk : Series) (p : option nat * option nat) : cell :=
match p with
| (Some i, _) => default CNaN (lk !! i)
| (None, Some j) => default CNaN (rk !! j)
| (None, None) => CNaN
end.

(** A stable sort by key: an element is inserted before the first
    element whose key is not smaller. *)
Fixpoint insert_by_key {A : Type} (key : A -> cell) (x : A) (l : list A) : list A :=
match l with
| [] => [x]
| y :: l' => if cell_leb (key x) (key y) then x :: l else y :: insert_by_key key x l'
end.

Definition sort_by_key {A : Type} (key : A -> cell) (l : list A) : list A :=
foldr (insert_by_key key) [] l.

(** The row pairs of [how="outer"]: an outer join sorts its rows by key
    ([sort=False] notwithstanding), rows with equal keys staying in the
    order of the left rows and, for one left row, of the right rows. *)
Definition get_join_indexers (lk rk : Series) : list (option nat * option nat) :=
sort_by_key (pair_key lk rk) (join_pairs lk rk).

(** The rows of a column selected by an indexer, with [NaN] where the
    indexer has no row. *)
Definition take_rows (ix : list (option nat)) (s : Series) : Series :=
(fun o => match o with Some i => default CNaN (s !! i) | None => CNaN end) <$> ix.

(** The value of the column [_merge] added by [indicator=True]. *)
Definition indicator (p : option nat * option nat) : cell :=
match p with
| (Some _, Some _) => CStr "both"
| (Some _, None) => CStr "left_only"
| (None, _) => CStr "right_only"
end.

(** The labels that [indicator=True] needs for itself: the two columns
    it adds to the frames before the join, and the column [_merge]. *)
Definition indicator_columns : list string :=
["_left_indicator"; "_right_indicator"; "_merge"].

(** A label shared with the other frame receives the suffix. *)
Definition suffixed (suffix : string) (others : list string) (l : string) : string :=
if bool_decide (l ∈ others) then l +:+ suffix else l.

(** A renaming must not make one label of a frame collide with another
    label of the same frame. *)
Definition duplicated (l : list string) : list bool :=
imap (fun i x => bool_decide (x ∈ firstn i l)) l.

Definition renaming_collides (old new : list string) : bool :=
existsb (fun p => p.2 && negb p.1) (zip (duplicated old) (duplicated new)).

(** Key columns of numbers are not merged with key columns of strings. *)
Definition incompatible (lk rk : Series) : bool :=
(negb (object_dtype lk) && existsb is_str rk)
|| (existsb is_str lk && negb (object_dtype rk)).

(** [pd.merge(left, right, how="outer", left_on=.., right_on=..,
    indicator=True)], with the default suffixes. *)
Definition pd_merge (left right : DataFrame) (left_on right_on : string)
  : result DataFrame :=
lk <- getitem left left_on ;;
rk <- getitem right right_on ;;
if incompatible lk rk then Err ValueError
else if bool_decide (Exists (fun l => l ∈ labels left ++ labels right)
                       indicator_columns) then Err ValueError
else
  let ix := get_join_indexers lk rk in
  let llabels := suffixed "_x" (labels right) <$> labels left in
  let rlabels := suffixed "_y" (labels left) <$> labels right in
  if renaming_collides (labels left) llabels || renaming_collides (labels right) rlabels
  then Err MergeError
  else Ok (mkDataFrame (length ix)
             (((fun c => (suffixed "_x" (labels right) c.1, take_rows ix.*1 c.2)) <$> data left)
              ++ ((fun c => (suffixed "_y" (labels left) c.1, take_rows ix.*2 c.2)) <$> data right)
              ++ [("_merge", indicator <$> ix)])).

(** ** The Merger *)

Definition link_flair : list string :=
["link_flair_text"; "link_flair_type";
 "link_flair_template_id"; "link_flair_richtext"].

(** The comments as the Merger joins them: cleaned, with the column
    [parent_clean_id] computed from [parent_id]. *)
Definition normalized_comments (fs : files) (comment_path : string) : result DataFrame :=
comments <- clean_comments fs comment_path ;;
parent_id <- getitem comments "parent_id" ;;
parent_clean_id <- str_replace parent_prefix_pattern parent_id ;;
Ok (setitem comments "parent_clean_id" parent_clean_id).

(** [merge_submissions_comments(sub_path, comment_path, output_path)]:
    the merged frame and the file system after [to_csv] wrote it.  The
    [print] calls are left out. *)
Definition merge_submissions_comments (fs : files)
    (sub_path comment_path output_path : string) : result (DataFrame * files) :=
submissions <- read_csv fs sub_path ;;
comments <- normalized_comments fs comment_path ;;
merged <- pd_merge submissions comments "submission_id" "parent_clean_id" ;;
merged <- drop link_flair Ignore merged ;;
Ok (merged, <[output_path := merged]> fs).

(** ** The Loader *)

(** A SQLite store, as far as the pipeline uses it: its tables, under
    the names they were created with.  Views, indexes and triggers are
    left out.  A missing value is [NULL]. *)
Abbreviation database := (gmap string DataFrame).

(** SQLite compares the names of tables and of columns without regard to
    the case of the ASCII letters. *)
Definition ascii_lower (c : ascii) : ascii :=
let n := nat_of_ascii c in
if (65 <=? n) && (n <=? 90) then ascii_of_nat (n + 32) else c.

Fixpoint sql_fold (s : string) : string :=
match s with
| EmptyString => EmptyString
| String c s' => String (ascii_lower c) (sql_fold s')
end.

(** The table that a statement of SQL names. *)
Definition sql_table (db : database) (name : string) : option DataFrame :=
match db !! name with
| Some t => Some t
| None =>
    snd <$> head (filter (fun e : string * DataFrame => sql_fold e.1 = sql_fold name)
                     (map_to_list db))
end.

(** The column of a table that a statement of SQL names. *)
Definition sql_column (t : DataFrame) (column : string) : result Series :=
match getitem t column with
| Ok s => Ok s
| Err _ =>
    match filter (fun c : string * Series => sql_fold c.1 = sql_fold column) (data t) with
    | c :: _ => Ok c.2
    | [] => Err DatabaseError
    end
end.









(** [SELECT COUNT(DISTINCT column) FROM t]: the number of different
    values of the column that are not [NULL]. *)
Definition count_distinct (t : DataFrame) (column : string) : result Z :=
match sql_column t column with
| Ok s => Ok (Z.of_nat (length (remove_dups (filter (fun c => c <> CNaN) s))))
| Err _ => Err DatabaseError
end.

(** [count_posts_comments(conn)] *)
Definition count_posts_comments (db : database) : result (Z * Z) :=
match sql_table db "comment_table" with
| None => Err DatabaseError
| Some t =>
    post_number <- count_distinct t "parent_id" ;;
    comment_number <- count_distinct t "comment_id" ;;
    Ok (post_number, comment_number)
end.


(** ** Statements about the Cleaner *)

(** A value that [fromtimestamp] can read as an epoch: an integer within
    the range of [datetime]. *)
Definition numeric_epoch (c : cell) : Prop :=
exists z, c = CInt z /\ (min_epoch <= z <= max_epoch)%Z.

(** The frame condition in its unamended form: the cleaned table has the
    rows of the input, keeps every input column outside the four flair
    columns with its values, and adds nothing but [created_time] and
    [year]. *)
Definition clean_keeps_every_other_column : Prop :=
forall (fs : files) (path : string) (inp out : DataFrame),
  read_csv fs path = Ok inp ->
  clean_comments fs path = Ok out ->
  nrows out = nrows inp
  /\ (forall l vs, (l, vs) ∈ data inp -> l ∉ author_flair -> (l, vs) ∈ data out)
  /\ (forall l vs, (l, vs) ∈ data out ->
        (l, vs) ∈ data inp \/ l = "created_time" \/ l = "year").

(** ** Sample inputs *)

(** The end-to-end scenario of the specification: one submission and one
    comment on it. *)
Definition scenario_submissions : DataFrame :=
mkDataFrame 1 [("submission_id", [CStr "s1"]); ("title", [CStr "A"])].

Definition scenario_comments : DataFrame :=
mkDataFrame 1 [("comment_id", [CStr "c1"]); ("parent_id", [CStr "t3_s1"]);
               ("created_utc", [CInt 1700000000])].

Definition scenario_files : files :=
<["submissions.csv" := scenario_submissions]>
  (<["comments.csv" := scenario_comments]> ∅).

Definition scenario_cleaned : DataFrame :=
mkDataFrame 1 [("comment_id", [CStr "c1"]); ("parent_id", [CStr "t3_s1"]);
               ("created_utc", [CInt 1700000000]);
               ("created_time", [CTime 1700000000]); ("year", [CInt 2023])].

(** Comments that already carry a column [year]. *)
Definition comments_with_year : DataFrame :=
mkDataFrame 1 [("created_utc", [CInt 1700000000]); ("year", [CInt 1999])].

(** Comments without the column [created_utc], and comments whose second
    [created_utc] is missing. *)
Definition comments_without_utc : DataFrame :=
mkDataFrame 1 [("comment_id", [CStr "c1"]); ("parent_id", [CStr "t3_s1"])].

Definition comments_with_gap : DataFrame :=
mkDataFrame 3 [("comment_id", [CStr "c1"; CStr "c2"; CStr "c3"]);
               ("created_utc", [CInt 1700000000; CNaN; CStr "soon"])].

(** Two submissions and three comments: one comment answers the first
    submission (its parent identifier has no prefix to strip), the others
    answer nothing that is in the table. *)
Definition matching_submissions : DataFrame :=
mkDataFrame 2 [("submission_id", [CStr "s1"; CStr "s2"]);
               ("title", [CStr "A"; CStr "B"])].

Definition matching_comments : DataFrame :=
mkDataFrame 3 [("comment_id", [CStr "c1"; CStr "c2"; CStr "c3"]);
               ("parent_id", [CStr "s1"; CStr "t3_s2"; CStr "t1_c1"]);
               ("created_utc", [CInt 1700000000; CInt 1700000001; CInt 1700000002])].

Definition matching_files : files :=
<["submissions.csv" := matching_submissions]>
  (<["comments.csv" := matching_comments]> ∅).

Definition empty_frame : DataFrame := mkDataFrame 0 [].

Definition matching_normalized : DataFrame :=
Eval vm_compute in
  match normalized_comments matching_files "comments.csv" with
  | Ok df => df
  | Err _ => empty_frame
  end.

Definition matching_merged : DataFrame :=
Eval vm_compute in
  match merge_submissions_comments matching_files
          "submissions.csv" "comments.csv" "joined.csv" with
  | Ok out => out.1
  | Err _ => empty_frame
  end.

(** The joined table of the end-to-end scenario, as the code computes it. *)
Definition scenario_merged : DataFrame :=
mkDataFrame 2
  [("submission_id", [CStr "s1"; CNaN]);
   ("title", [CStr "A"; CNaN]);
   ("comment_id", [CNaN; CStr "c1"]);
   ("parent_id", [CNaN; CStr "t3_s1"]);
   ("created_utc", [CNaN; CInt 1700000000]);
   ("created_time", [CNaN; CTime 1700000000]);
   ("year", [CNaN; CInt 2023]);
   ("parent_clean_id", [CNaN; CStr "t3_s1"]);
   ("_merge", [CStr "left_only"; CStr "right_only"])].

(** ** Statements about the joined table *)







(** ** Statements about the Loader *)

(** [n] is the number of different values of the column [s] that are not
    missing. *)
Definition counts_distinct (s : Series) (n : Z) : Prop :=
exists ds : Series,
  NoDup ds /\ (forall x, x ∈ ds <-> x ∈ s /\ x <> CNaN) /\ n = Z.of_nat (length ds).

(** A store that holds an older comment table. *)
Definition old_database : database :=
<["comment_table" := matching_comments]> (<["other_table" := scenario_submissions]> ∅).






(** ** The calendar, for statements about years *)

(** The number of days before 1 January of a year, counted from year 1 of
    the proleptic Gregorian calendar. *)
Definition days_before_year (year : Z) : Z :=
(let y := year - 1 in 365 * y + y / 4 - y / 100 + y / 400)%Z.

(** The epoch second at which a year begins in UTC (1 January 1970 is day
    719162 after 1 January of year 1). *)
Definition epoch_of_year (year : Z) : Z :=
(86400 * (days_before_year year - 719162))%Z.

(** Comments without rows, as [read_csv] returns them for a file that
    holds only the header line. *)
Definition header_only_comments : DataFrame :=
mkDataFrame 0 [("comment_id", []); ("parent_id", []); ("created_utc", [])].

(** Comments whose parent identifiers are numbers, and submissions without
    the column [submission_id]. *)
Definition numeric_parent_comments : DataFrame :=
mkDataFrame 2 [("comment_id", [CStr "c1"; CStr "c2"]);
               ("parent_id", [CInt 11; CInt 12]);
               ("created_utc", [CInt 1700000000; CInt 1700000001])].

Definition untitled_submissions : DataFrame :=
mkDataFrame 1 [("title", [CStr "A"])].

(** Submissions without rows. *)
Definition header_only_submissions : DataFrame :=
mkDataFrame 0 [("submission_id", []); ("title", [])].

(** The number of pairs of equal keys between two key columns. *)
Definition total_matches (lk rk : Series) : nat :=
sum_list ((fun c => length (filter (fun r => r = c) rk)) <$> lk).



(** Comments that repeat an identifier and lack another. *)
Definition repeated_comments : DataFrame :=
mkDataFrame 3 [("comment_id", [CStr "c1"; CStr "c1"; CNaN]);
               ("parent_id", [CStr "t3_s1"; CStr "t3_s1"; CStr "t3_s1"])].

(** * Properties *)

(** ** Rounding and digits *)

Section UtilsFacts.
Import Utils.

Lemma round_half_even_nearest (q : Q) :
  (Qabs (q - inject_Z (round_half_even q)) <= 1 # 2)%Q.
Proof.
  destruct q as [n d]. apply Qabs_Qle_condition.
  unfold round_half_even, Qle, Qminus, Qplus, Qopp, inject_Z. cbn [Qnum Qden].
  pose proof (Z.div_mod n (Zpos d) ltac:(lia)) as Hdm.
  pose proof (Z.mod_pos_bound n (Zpos d) ltac:(lia)) as Hb.
  set (f := (n / Zpos d)%Z) in *. set (r := (n mod Zpos d)%Z) in *.
  rewrite !Pos2Z.inj_mul.
  repeat match goal with |- context [if ?b then _ else _] => destruct b eqn:? end;
    split; nia.
Qed.

Lemma digit_is_digit (n : Z) : (0 <= n < 10)%Z -> is_digit (digit n).
Proof.
  intros Hn. unfold is_digit, digit.
  rewrite nat_ascii_embedding by lia. lia.
Qed.

Lemma round_half_even_sign (q : Q) :
  if (Qnum q <? 0)%Z then (round_half_even q <= 0)%Z else (0 <= round_half_even q)%Z.
Proof.
  destruct q as [n d]. unfold round_half_even. cbn [Qnum Qden].
  pose proof (Z.div_mod n (Zpos d) ltac:(lia)) as Hdm.
  pose proof (Z.mod_pos_bound n (Zpos d) ltac:(lia)) as Hb.
  set (f := (n / Zpos d)%Z) in *. set (r := (n mod Zpos d)%Z) in *.
  repeat match goal with |- context [if ?b then _ else _] => destruct b eqn:? end;
    nia.
Qed.

Lemma string_of_uint_digits (d : Decimal.uint) :
  all_digits (NilEmpty.string_of_uint d).
Proof.
  unfold all_digits.
  induction d; simpl; [constructor | ..];
    (constructor; [split; apply Nat.leb_le; reflexivity | assumption]).
Qed.

Lemma decimal_of_Z_digits (n : Z) : all_digits (decimal_of_Z n).
Proof.
  unfold decimal_of_Z, NilZero.string_of_uint.
  destruct (N.to_uint (Z.to_N n)) eqn:E; try (rewrite <- E; apply string_of_uint_digits).
  unfold all_digits. simpl.
  constructor; [split; apply Nat.leb_le; reflexivity | constructor].
Qed.

Lemma decimal_of_Z_value (n : Z) :
  (0 <= n)%Z -> decimal_value (decimal_of_Z n) = Some n.
Proof.
  intros Hn. unfold decimal_value, decimal_of_Z.
  assert (Hnn : N.to_uint (Z.to_N n) <> Decimal.Nil).
  { destruct (Z.to_N n) as [|p]; [discriminate|]. simpl.
    apply DecimalPos.Unsigned.to_uint_nonnil. }
  rewrite (NilZero.usu _ Hnn). simpl.
  by rewrite DecimalN.Unsigned.of_to, Z2N.id.
Qed.

Lemma digit_value_digit (n : Z) : (0 <= n < 10)%Z -> digit_value (digit n) = n.
Proof.
  intros Hn. unfold digit_value, digit.
  rewrite nat_ascii_embedding by lia. lia.
Qed.

Lemma symbol_of_other (currency : string) :
  currency <> "USD" -> currency <> "EUR" -> currency <> "GBP" ->
  symbol_of currency = "$".
Proof.
  intros H1 H2 H3. unfold symbol_of, symbols.
  rewrite !lookup_insert_ne by congruence. by rewrite lookup_empty.
Qed.

End UtilsFacts.

(** ** Parent-identifier normalization *)

Lemma match_here_One (cls : charclass) (p : list item) (c : ascii) (s : string) :
  match_here (One cls :: p) (String c s)
  = if in_class cls c then S <$> match_here p s else None.
Proof. reflexivity. Qed.

Lemma match_here_One_empty (cls : charclass) (p : list item) :
  match_here (One cls :: p) EmptyString = None.
Proof. reflexivity. Qed.

Lemma match_parent_prefix_backslash (s : string) (n : nat) :
  match_here parent_prefix_pattern s = Some n ->
  exists rest, s = String "t" (String "\" rest).
Proof.
  unfold parent_prefix_pattern. intros H.
  destruct s as [|c1 s]; [discriminate|].
  rewrite match_here_One in H. unfold in_class in H.
  destruct (Ascii.eqb "t" c1) eqn:E1; [|discriminate].
  destruct s as [|c2 rest].
  { rewrite match_here_One_empty in H. discriminate. }
  rewrite match_here_One in H. unfold in_class in H.
  destruct (Ascii.eqb "\" c2) eqn:E2; [|discriminate].
  apply Ascii.eqb_eq in E1, E2. subst. eauto.
Qed.

(** Only a string that holds a backslash can be changed by the pattern
    of the source. *)
Lemma normalize_without_backslash (s : string) :
  "\"%char ∉ list_ascii_of_string s -> normalize_parent_id s = s.
Proof.
  unfold normalize_parent_id, re_delete.
  induction s as [|c s IH]; intros Hs; [reflexivity|].
  cbn [delete_from].
  destruct (match_here parent_prefix_pattern (String c s)) as [[|k]|] eqn:E.
  - f_equal. apply IH. intros Hin. apply Hs. simpl. by right.
  - apply match_parent_prefix_backslash in E as [rest E].
    exfalso. apply Hs. inversion E; subst. simpl. right. left.
  - f_equal. apply IH. intros Hin. apply Hs. simpl. by right.
Qed.

(** C1. The substitution of the source leaves the Reddit identifiers as
    they are: ["t1_abc123"] and ["t3_xyz"] keep their prefix, while the
    pattern described by the comment of the source would strip it. *)
Theorem normalize_keeps_reddit_prefix :
  normalize_parent_id "t1_abc123" = "t1_abc123"
  /\ normalize_parent_id "t3_xyz" = "t3_xyz"
  /\ re_delete intended_prefix_pattern "t1_abc123" = "abc123"
  /\ re_delete intended_prefix_pattern "t3_xyz" = "xyz"
  /\ normalize_parent_id "t\d_abc123" = "abc123".
Proof. repeat split; reflexivity. Qed.

(** ** Year derivation *)

Lemma year_of_epoch_2023 (t : Z) :
  (1672531200 <= t < 1704067200)%Z -> year_of_epoch t = 2023%Z.
Proof.
  intros Ht. unfold year_of_epoch, ord2year.
  assert (Hd : (19358 <= t / 86400 < 19723)%Z).
  { split; [apply Z.div_le_lower_bound; lia | apply Z.div_lt_upper_bound; lia]. }
  set (d := (t / 86400)%Z) in *. clearbody d. clear Ht.
  set (n := (d + 719163 - 1)%Z). cbv zeta.
  assert (H400 : (n / 146097 = 5)%Z).
  { symmetry. apply (Z.div_unique n 146097 5 (n - 730485)); unfold n; lia. }
  assert (Hm400 : (n mod 146097 = n - 730485)%Z).
  { symmetry. apply (Z.mod_unique n 146097 5 (n - 730485)); unfold n; lia. }
  rewrite H400, Hm400.
  assert (H100 : ((n - 730485) / 36524 = 0)%Z).
  { apply Z.div_small. unfold n. lia. }
  assert (Hm100 : ((n - 730485) mod 36524 = n - 730485)%Z).
  { apply Z.mod_small. unfold n. lia. }
  rewrite H100, Hm100.
  assert (H4 : ((n - 730485) / 1461 = 5)%Z).
  { symmetry. apply (Z.div_unique _ 1461 5 (n - 737790)); unfold n; lia. }
  assert (Hm4 : ((n - 730485) mod 1461 = n - 737790)%Z).
  { symmetry. apply (Z.mod_unique _ 1461 5 (n - 737790)); unfold n; lia. }
  rewrite H4, Hm4.
  assert (H1 : ((n - 737790) / 365 = 2)%Z).
  { symmetry. apply (Z.div_unique _ 365 2 (n - 738520)); unfold n; lia. }
  rewrite H1. reflexivity.
Qed.

(** ** The error monad and frames *)

(** Closed decidable statements are settled by evaluation. *)
Ltac by_computation :=
  refine (bool_decide_unpack _ _); vm_compute; exact I.

Lemma bind_Ok {A B : Type} (r : result A) (k : A -> result B) (b : B) :
  bind r k = Ok b -> exists a, r = Ok a /\ k a = Ok b.
Proof. destruct r as [a|e]; simpl; [eauto | discriminate]. Qed.

Lemma mapM_length {A B : Type} (f : A -> result B) (l : list A) (ys : list B) :
  mapM f l = Ok ys -> length ys = length l.
Proof.
  revert ys. induction l as [|x l IH]; intros ys; simpl.
  - by intros [= <-].
  - intros H. apply bind_Ok in H as (y & _ & H).
    apply bind_Ok in H as (ys' & Hys & [= <-]). simpl. f_equal. by apply IH.
Qed.

Lemma mapM_lookup {A B : Type} (f : A -> result B) (l : list A) (ys : list B)
    (i : nat) (x : A) :
  mapM f l = Ok ys -> l !! i = Some x -> exists y, f x = Ok y /\ ys !! i = Some y.
Proof.
  revert ys i. induction l as [|a l IH]; intros ys i; simpl; [done|].
  intros H Hi. apply bind_Ok in H as (y & Hy & H).
  apply bind_Ok in H as (ys' & Hys & [= <-]).
  destruct i as [|i]; simpl in *.
  - injection Hi as ->. eauto.
  - eapply IH; eauto.
Qed.

(** A traversal that meets a failing element reports the error of the
    first one. *)
Lemma mapM_first_error {A B : Type} (f : A -> result B) (l : list A) (x : A) :
  x ∈ l -> (forall y, f x <> Ok y) ->
  exists good bad rest e,
    l = good ++ bad :: rest
    /\ Forall (fun a => exists y, f a = Ok y) good
    /\ f bad = Err e
    /\ mapM f l = Err e.
Proof.
  intros Hin Hx. induction l as [|a l IH]; [by apply elem_of_nil in Hin|].
  destruct (f a) as [y|e] eqn:Ha.
  - assert (Hl : x ∈ l).
    { apply elem_of_cons in Hin as [->|]; [by destruct (Hx y)|done]. }
    destruct (IH Hl) as (good & bad & rest & e & -> & Hgood & Hbad & HM).
    exists (a :: good), bad, rest, e. repeat split; try done.
    + constructor; eauto.
    + simpl. rewrite Ha. simpl. by rewrite HM.
  - exists [], a, l, e. repeat split; try done. simpl. by rewrite Ha.
Qed.

Lemma getitem_cons (n : nat) (c : string * Series) (d : list (string * Series))
    (l : string) :
  getitem (mkDataFrame n (c :: d)) l
  = if decide (c.1 = l) then Ok c.2 else getitem (mkDataFrame n d) l.
Proof.
  unfold getitem. simpl. destruct (decide (c.1 = l)); [done|].
  by destruct (list_find _ d) as [[? ?]|].
Qed.

Lemma getitem_data (df : DataFrame) (n : nat) (l : string) :
  getitem (mkDataFrame n (data df)) l = getitem df l.
Proof. by destruct df. Qed.

Lemma getitem_Ok (df : DataFrame) (l : string) (s : Series) :
  getitem df l = Ok s -> (l, s) ∈ data df.
Proof.
  destruct df as [n d]. induction d as [|c d IH]; [discriminate|].
  rewrite getitem_cons. destruct (decide (c.1 = l)) as [<-|].
  - intros [= <-]. destruct c. left.
  - intros H. right. by apply IH.
Qed.

Lemma getitem_Err (df : DataFrame) (l : string) (e : error) :
  getitem df l = Err e -> (l ∉ labels df) /\ e = KeyError l.
Proof.
  destruct df as [n d]. unfold labels. simpl.
  induction d as [|c d IH].
  - intros [= <-]. split; [apply not_elem_of_nil | done].
  - rewrite getitem_cons. destruct (decide (c.1 = l)) as [|Hne]; [discriminate|].
    intros H. destruct (IH H) as [Hn ->]. split; [|done].
    rewrite fmap_cons. intros [?|?]%elem_of_cons; [by apply Hne | by apply Hn].
Qed.

Lemma getitem_missing (df : DataFrame) (l : string) :
  l ∉ labels df -> getitem df l = Err (KeyError l).
Proof.
  intros Hl. destruct (getitem df l) as [s|e] eqn:E.
  - apply getitem_Ok in E. exfalso. apply Hl.
    apply list_elem_of_fmap. by exists (l, s).
  - by apply getitem_Err in E as [_ ->].
Qed.

Lemma getitem_present (df : DataFrame) (l : string) :
  l ∈ labels df -> exists s, getitem df l = Ok s.
Proof.
  intros Hl. destruct (getitem df l) as [s|e] eqn:E; [eauto|].
  by apply getitem_Err in E as [? _].
Qed.

Lemma nrows_setitem (df : DataFrame) (l : string) (v : Series) :
  nrows (setitem df l v) = nrows df.
Proof. unfold setitem. by case_bool_decide. Qed.

Lemma elem_of_setitem (df : DataFrame) (l : string) (v : Series)
    (l' : string) (vs : Series) :
  (l', vs) ∈ data (setitem df l v)
  <-> ((l', vs) ∈ data df /\ l' <> l) \/ (l' = l /\ vs = v).
Proof.
  unfold setitem. case_bool_decide as Hin; simpl.
  - rewrite list_elem_of_fmap. split.
    + intros ([a b] & Heq & Hab). simpl in Heq. case_bool_decide as Hc.
      * injection Heq as -> ->. by right.
      * injection Heq as -> ->. left. by split.
    + intros [[Hd Hne]|[-> ->]].
      * exists (l', vs). simpl. rewrite bool_decide_eq_false_2 by done. done.
      * apply list_elem_of_fmap in Hin as ([a b] & -> & Hab).
        exists (a, b). simpl. by rewrite bool_decide_eq_true_2.
  - rewrite elem_of_app, list_elem_of_singleton. split.
    + intros [Hd|[= -> ->]]; [|by right]. left. split; [done|].
      intros ->. apply Hin. apply list_elem_of_fmap. by exists (l, vs).
    + intros [[Hd _]|[-> ->]]; [by left | by right].
Qed.

Lemma getitem_setitem_eq (df : DataFrame) (l : string) (v : Series) :
  getitem (setitem df l v) l = Ok v.
Proof.
  unfold setitem. case_bool_decide as Hin.
  - destruct df as [n d]. unfold labels in Hin. simpl in *.
    induction d as [|c d IH]; [by apply elem_of_nil in Hin|].
    rewrite fmap_cons, getitem_cons. case_bool_decide as Hc; simpl.
    + by rewrite decide_True.
    + rewrite decide_False by done. apply IH.
      rewrite fmap_cons in Hin. by apply elem_of_cons in Hin as [->|].
  - destruct df as [n d]. unfold labels in Hin. simpl in *.
    induction d as [|c d IH]; simpl.
    + rewrite getitem_cons. simpl. by rewrite decide_True.
    + rewrite getitem_cons. rewrite fmap_cons, not_elem_of_cons in Hin.
      destruct Hin as [Hne Hin]. rewrite decide_False by done. by apply IH.
Qed.

Lemma getitem_setitem_ne (df : DataFrame) (l l' : string) (v : Series) :
  l' <> l -> getitem (setitem df l v) l' = getitem df l'.
Proof.
  intros Hne. unfold setitem. case_bool_decide as Hin.
  - destruct df as [n d]. simpl. clear Hin.
    induction d as [|c d IH]; [done|].
    rewrite fmap_cons, !getitem_cons. case_bool_decide as Hc; simpl.
    + rewrite !decide_False by congruence. apply IH.
    + destruct (decide (c.1 = l')); [done | apply IH].
  - destruct df as [n d]. simpl. clear Hin.
    induction d as [|c d IH]; simpl.
    + rewrite getitem_cons. simpl. by rewrite decide_False.
    + rewrite !getitem_cons. destruct (decide (c.1 = l')); [done | apply IH].
Qed.

Lemma labels_setitem (df : DataFrame) (l : string) (v : Series) :
  labels (setitem df l v)
  = if bool_decide (l ∈ labels df) then labels df else labels df ++ [l].
Proof.
  unfold setitem, labels. case_bool_decide; simpl.
  - rewrite <- list_fmap_compose. apply list_fmap_ext.
    intros i [a b] _. simpl. by case_bool_decide.
  - by rewrite fmap_app.
Qed.

Lemma drop_Ignore (names : list string) (df : DataFrame) :
  drop names Ignore df
  = Ok (mkDataFrame (nrows df) (filter (fun c => c.1 ∉ names) (data df))).
Proof. reflexivity. Qed.

Lemma getitem_filter (names : list string) (n m : nat)
    (d : list (string * Series)) (l : string) :
  l ∉ names ->
  getitem (mkDataFrame n (filter (fun c => c.1 ∉ names) d)) l
  = getitem (mkDataFrame m d) l.
Proof.
  intros Hl. induction d as [|c d IH]; [done|].
  rewrite filter_cons, (getitem_cons m). destruct (decide (c.1 ∉ names)) as [Hc|Hc].
  - rewrite getitem_cons. by rewrite IH.
  - rewrite IH. rewrite decide_False; [done|]. intros Heq. apply Hc. by rewrite Heq.
Qed.

Lemma filter_idemp {A : Type} (P : A -> Prop) `{!forall x, Decision (P x)}
    (l : list A) :
  filter P (filter P l) = filter P l.
Proof.
  induction l as [|x l IH]; [done|].
  rewrite filter_cons. destruct (decide (P x)) as [Hx|Hx]; [|done].
  rewrite filter_cons, decide_True by done. by rewrite IH.
Qed.

Lemma filter_all {A : Type} (P : A -> Prop) `{!forall x, Decision (P x)}
    (l : list A) :
  Forall P l -> filter P l = l.
Proof.
  induction 1 as [|x l Hx _ IH]; [done|].
  by rewrite filter_cons, decide_True, IH.
Qed.

Lemma dt_year_Ok (s ys : Series) :
  dt_year s = Ok ys ->
  s <> [] /\ forallb is_timestamp s = true
  /\ ys = (fun c => match c with CTime t => CInt (year_of_epoch t) | _ => CNaN end) <$> s.
Proof.
  unfold dt_year. destruct s as [|c s]; [discriminate|].
  destruct (forallb is_timestamp (c :: s)); [|discriminate].
  by intros [= <-].
Qed.

(** ** The Cleaner *)

(** The steps of a successful run of [clean_comments]. *)
Lemma clean_comments_Ok (fs : files) (path : string) (out : DataFrame) :
  clean_comments fs path = Ok out ->
  exists inp utc times years,
    read_csv fs path = Ok inp
    /\ getitem inp "created_utc" = Ok utc
    /\ series_apply fromtimestamp utc = Ok times
    /\ dt_year times = Ok years
    /\ out = setitem
               (setitem
                  (mkDataFrame (nrows inp)
                     (filter (fun c => c.1 ∉ author_flair) (data inp)))
                  "created_time" times)
               "year" years.
Proof.
  unfold clean_comments. intros H.
  apply bind_Ok in H as (inp & Hread & H).
  rewrite drop_Ignore in H. cbn [bind] in H.
  apply bind_Ok in H as (utc & Hutc & H).
  apply bind_Ok in H as (times & Htimes & H).
  rewrite getitem_setitem_eq in H. cbn [bind] in H.
  apply bind_Ok in H as (years & Hyears & [= <-]).
  exists inp, utc, times, years. repeat split; try done.
  rewrite getitem_filter with (m := nrows inp) in Hutc.
  - by rewrite getitem_data in Hutc.
  - by_computation.
Qed.

Lemma fromtimestamp_Ok (c y : cell) :
  fromtimestamp c = Ok y -> exists z, c = CInt z /\ y = CTime z
                                      /\ (min_epoch <= z <= max_epoch)%Z.
Proof.
  destruct c as [z| | |]; simpl; try discriminate.
  destruct (min_epoch <=? z)%Z eqn:E1; [|discriminate].
  destruct (z <=? max_epoch)%Z eqn:E2; [|discriminate].
  intros [= <-]. exists z. repeat split; lia.
Qed.

Lemma fromtimestamp_numeric_epoch (c : cell) :
  numeric_epoch c <-> exists y, fromtimestamp c = Ok y.
Proof.
  split.
  - intros (z & -> & Hz). exists (CTime z). simpl.
    destruct (min_epoch <=? z)%Z eqn:E1; [|lia].
    destruct (z <=? max_epoch)%Z eqn:E2; [done|lia].
  - intros [y (z & -> & _ & Hz)%fromtimestamp_Ok]. by exists z.
Qed.

(** C4. In a cleaned table, every row whose [created_utc] is the integer
    1700000000 has the timestamp of that instant as [created_time], which
    lies in the UTC calendar year 2023, and has [year] equal to 2023. *)
Theorem clean_derives_year_2023 (fs : files) (path : string)
    (inp out : DataFrame) (utc : Series) (i : nat) :
  read_csv fs path = Ok inp ->
  getitem inp "created_utc" = Ok utc ->
  clean_comments fs path = Ok out ->
  utc !! i = Some (CInt 1700000000) ->
  exists times years,
    getitem out "created_time" = Ok times
    /\ getitem out "year" = Ok years
    /\ times !! i = Some (CTime 1700000000)
    /\ year_of_epoch 1700000000 = 2023%Z
    /\ years !! i = Some (CInt 2023).
Proof.
  intros Hread Hutc Hclean Hi.
  apply clean_comments_Ok in Hclean
    as (inp' & utc' & times & years & Hread' & Hutc' & Htimes & Hyears & ->).
  rewrite Hread in Hread'. injection Hread' as <-.
  rewrite Hutc in Hutc'. injection Hutc' as <-.
  exists times, years.
  rewrite getitem_setitem_ne, !getitem_setitem_eq by done.
  destruct (mapM_lookup _ _ _ _ _ Htimes Hi) as (y & Hy & Hti).
  apply fromtimestamp_Ok in Hy as (z & [= <-] & -> & _).
  apply dt_year_Ok in Hyears as (_ & _ & ->).
  repeat split; try done.
  rewrite list_lookup_fmap, Hti. reflexivity.
Qed.

Lemma clean_derives_year_2023_witness :
  exists times years,
    getitem scenario_cleaned "created_time" = Ok times
    /\ getitem scenario_cleaned "year" = Ok years
    /\ times !! 0%nat = Some (CTime 1700000000)
    /\ year_of_epoch 1700000000 = 2023%Z
    /\ years !! 0%nat = Some (CInt 2023).
Proof.
  apply (clean_derives_year_2023 scenario_files "comments.csv"
           scenario_comments scenario_cleaned [CInt 1700000000] 0);
    vm_compute; reflexivity.
Defined.

(** C5. When the column [created_utc] is missing, or some row holds a
    value that is not a numeric epoch, [clean_comments] returns no table:
    it raises [KeyError] in the first case and, in the second, the error
    of the first such value. *)
Theorem clean_fails_on_bad_created_utc (fs : files) (path : string)
    (inp : DataFrame) :
  read_csv fs path = Ok inp ->
  ("created_utc" ∉ labels inp ->
     clean_comments fs path = Err (KeyError "created_utc"))
  /\ (forall (utc : Series) (c : cell),
        getitem inp "created_utc" = Ok utc -> c ∈ utc -> ~ numeric_epoch c ->
        exists good bad rest e,
          utc = good ++ bad :: rest
          /\ Forall numeric_epoch good
          /\ ~ numeric_epoch bad
          /\ fromtimestamp bad = Err e
          /\ clean_comments fs path = Err e).
Proof.
  intros Hread.
  assert (Hget : getitem (mkDataFrame (nrows inp)
                   (filter (fun c => c.1 ∉ author_flair) (data inp))) "created_utc"
                 = getitem inp "created_utc").
  { rewrite getitem_filter with (m := nrows inp).
    - apply getitem_data.
    - by_computation. }
  split.
  - intros Hmiss. unfold clean_comments. rewrite Hread. cbn [bind].
    rewrite drop_Ignore. cbn [bind]. rewrite Hget.
    by rewrite (getitem_missing _ _ Hmiss).
  - intros utc c Hutc Hc Hbad.
    destruct (mapM_first_error fromtimestamp utc c Hc)
      as (good & bad & rest & e & -> & Hgood & Hb & HM).
    { intros y Hy. apply Hbad. apply fromtimestamp_numeric_epoch. eauto. }
    exists good, bad, rest, e. repeat split; try done.
    + eapply Forall_impl; [exact Hgood|]. intros a Ha.
      by apply fromtimestamp_numeric_epoch.
    + intros [y Hy]%fromtimestamp_numeric_epoch. congruence.
    + unfold clean_comments. rewrite Hread. cbn [bind].
      rewrite drop_Ignore. cbn [bind]. rewrite Hget, Hutc. cbn [bind].
      unfold series_apply. by rewrite HM.
Qed.

Lemma clean_fails_on_bad_created_utc_witness :
  clean_comments (<["c.csv" := comments_without_utc]> ∅) "c.csv"
    = Err (KeyError "created_utc")
  /\ clean_comments (<["c.csv" := comments_with_gap]> ∅) "c.csv" = Err ValueError.
Proof.
  split.
  - apply (clean_fails_on_bad_created_utc
             (<["c.csv" := comments_without_utc]> ∅) "c.csv" comments_without_utc);
      [vm_compute; reflexivity|]. by_computation.
  - assert (Hread : read_csv (<["c.csv" := comments_with_gap]> ∅) "c.csv"
                    = Ok comments_with_gap) by (vm_compute; reflexivity).
    destruct (clean_fails_on_bad_created_utc _ _ _ Hread) as [_ H].
    destruct (H [CInt 1700000000; CNaN; CStr "soon"] (CStr "soon"))
      as (good & bad & rest & e & _ & _ & _ & _ & Hclean).
    + vm_compute; reflexivity.
    + by_computation.
    + intros (z & Hz & _). discriminate.
    + rewrite Hclean. vm_compute in Hclean. by injection Hclean as <-.
Defined.

(** C6. Dropping a fixed set of columns with [errors="ignore"] never
    fails, whichever of the columns are absent; it keeps exactly the
    labels outside the set, leaves a table without any of them as it is,
    and a second drop changes nothing.  This covers the drop of the four
    [author_flair] columns in the Cleaner and of the four [link_flair]
    columns in the Merger. *)
Theorem flair_drop_idempotent_tolerant (names : list string) (df : DataFrame) :
  exists once,
    drop names Ignore df = Ok once
    /\ drop names Ignore once = Ok once
    /\ labels once = filter (fun l => l ∉ names) (labels df)
    /\ nrows once = nrows df
    /\ ((forall n, n ∈ names -> n ∉ labels df) -> once = df).
Proof.
  exists (mkDataFrame (nrows df) (filter (fun c => c.1 ∉ names) (data df))).
  rewrite !drop_Ignore. cbn [nrows data]. repeat split.
  - by rewrite filter_idemp.
  - unfold labels. cbn [data]. induction (data df) as [|c d IH]; [done|].
    rewrite fmap_cons, !filter_cons.
    destruct (decide (c.1 ∉ names)); [by rewrite fmap_cons, IH | done].
  - intros Habs. destruct df as [n d]. cbn [nrows data]. f_equal.
    apply filter_all. apply Forall_forall. intros [l vs] Hc Hin. simpl in Hin.
    apply (Habs l Hin). apply list_elem_of_fmap. by exists (l, vs).
Qed.

Lemma flair_drop_idempotent_tolerant_witness :
  drop author_flair Ignore scenario_comments = Ok scenario_comments
  /\ drop link_flair Ignore scenario_submissions = Ok scenario_submissions.
Proof.
  split.
  - destruct (flair_drop_idempotent_tolerant author_flair scenario_comments)
      as (once & H1 & _ & _ & _ & H5).
    rewrite H1. f_equal. apply H5. intros n Hn. revert n Hn.
    apply Forall_forall. by_computation.
  - destruct (flair_drop_idempotent_tolerant link_flair scenario_submissions)
      as (once & H1 & _ & _ & _ & H5).
    rewrite H1. f_equal. apply H5. intros n Hn. revert n Hn.
    apply Forall_forall. by_computation.
Defined.

Lemma well_formed_setitem (df : DataFrame) (l : string) (v : Series) :
  well_formed df -> length v = nrows df -> well_formed (setitem df l v).
Proof.
  intros [Hnd Hlen] Hv. split.
  - rewrite labels_setitem. case_bool_decide as Hin; [done|].
    apply NoDup_app. split; [done|]. split; [|apply NoDup_singleton].
    intros x Hx ->%list_elem_of_singleton. by apply Hin.
  - rewrite nrows_setitem. apply Forall_forall. intros [l' vs] Hin.
    apply elem_of_setitem in Hin as [[Hin _]|[-> ->]]; [|done].
    by apply (proj1 (Forall_forall _ _) Hlen (l', vs)).
Qed.

Lemma well_formed_filter (P : string * Series -> Prop)
    `{!forall c, Decision (P c)} (df : DataFrame) :
  well_formed df -> well_formed (mkDataFrame (nrows df) (filter P (data df))).
Proof.
  intros [Hnd Hlen]. split; cbn [nrows data].
  - unfold labels in *. cbn [data]. eapply sublist_NoDup; [exact Hnd|].
    apply fmap_sublist, sublist_filter.
  - apply Forall_forall. intros c [_ Hc]%list_elem_of_filter.
    by apply (proj1 (Forall_forall _ _) Hlen c).
Qed.

Lemma well_formed_getitem (df : DataFrame) (l : string) (s : Series) :
  well_formed df -> getitem df l = Ok s -> length s = nrows df.
Proof.
  intros [_ Hlen] H%getitem_Ok.
  by apply (proj1 (Forall_forall _ _) Hlen (l, s)).
Qed.

Lemma dt_year_length (s ys : Series) : dt_year s = Ok ys -> length ys = length s.
Proof. intros (_ & _ & ->)%dt_year_Ok. by rewrite length_fmap. Qed.

Lemma clean_comments_nrows (fs : files) (path : string) (inp out : DataFrame) :
  read_csv fs path = Ok inp -> clean_comments fs path = Ok out ->
  nrows out = nrows inp.
Proof.
  intros Hread Hclean.
  apply clean_comments_Ok in Hclean
    as (inp' & utc & times & years & Hread' & _ & _ & _ & ->).
  rewrite Hread in Hread'. injection Hread' as <-.
  by rewrite !nrows_setitem.
Qed.

Lemma clean_comments_well_formed (fs : files) (path : string)
    (inp out : DataFrame) :
  read_csv fs path = Ok inp -> clean_comments fs path = Ok out ->
  well_formed inp -> well_formed out.
Proof.
  intros Hread Hclean Hwf.
  apply clean_comments_Ok in Hclean
    as (inp' & utc & times & years & Hread' & Hutc & Htimes & Hyears & ->).
  rewrite Hread in Hread'. injection Hread' as <-.
  pose proof (well_formed_getitem _ _ _ Hwf Hutc) as Hlen.
  apply mapM_length in Htimes. apply dt_year_length in Hyears.
  apply well_formed_setitem; [apply well_formed_setitem|].
  - by apply well_formed_filter.
  - cbn [nrows]. congruence.
  - rewrite nrows_setitem. cbn [nrows]. congruence.
Qed.

(** C9, as first stated, fails: a column of the input that is itself
    named [year] does not keep its values. *)
Lemma clean_overwrites_input_year : ~ clean_keeps_every_other_column.
Proof.
  intros H.
  destruct (H (<["c.csv" := comments_with_year]> ∅) "c.csv" comments_with_year
              (mkDataFrame 1 [("created_utc", [CInt 1700000000]);
                              ("year", [CInt 2023]);
                              ("created_time", [CTime 1700000000])]))
    as (_ & Hkeep & _); [vm_compute; reflexivity ..|].
  specialize (Hkeep "year" [CInt 1999]).
  revert Hkeep. by_computation.
Qed.

(** C9, amended. A successful [clean_comments] returns a table with the
    number of rows of the input; every input column that is neither one of
    the four flair columns nor named [created_time] or [year] is kept with
    its values, the flair columns are gone, and the only other columns are
    [created_time] and [year], which hold the derived timestamps and
    years (in place of an input column of that name, if there was one).
    The table stays well formed. *)
Theorem clean_frame (fs : files) (path : string) (inp out : DataFrame) :
  read_csv fs path = Ok inp ->
  clean_comments fs path = Ok out ->
  nrows out = nrows inp
  /\ (forall l vs, (l, vs) ∈ data inp -> l ∉ author_flair ->
        l <> "created_time" -> l <> "year" -> (l, vs) ∈ data out)
  /\ (forall l vs, (l, vs) ∈ data out -> l <> "created_time" -> l <> "year" ->
        (l, vs) ∈ data inp /\ (l ∉ author_flair))
  /\ (exists utc times years,
        getitem inp "created_utc" = Ok utc
        /\ series_apply fromtimestamp utc = Ok times
        /\ dt_year times = Ok years
        /\ getitem out "created_time" = Ok times
        /\ getitem out "year" = Ok years)
  /\ (well_formed inp -> well_formed out).
Proof.
  intros Hread Hclean.
  pose proof (clean_comments_well_formed _ _ _ _ Hread Hclean) as Hwf.
  apply clean_comments_Ok in Hclean
    as (inp' & utc & times & years & Hread' & Hutc & Htimes & Hyears & ->).
  rewrite Hread in Hread'. injection Hread' as <-.
  split; [by rewrite !nrows_setitem|]. split; [|split; [|split; [|done]]].
  - intros l vs Hin Hfl Hct Hy.
    apply elem_of_setitem. left. split; [|done].
    apply elem_of_setitem. left. split; [|done].
    cbn [data]. apply list_elem_of_filter. by split.
  - intros l vs Hin Hct Hy.
    apply elem_of_setitem in Hin as [[Hin _]|[? _]]; [|done].
    apply elem_of_setitem in Hin as [[Hin _]|[? _]]; [|done].
    cbn [data] in Hin. apply list_elem_of_filter in Hin as [Hfl Hin]. by split.
  - exists utc, times, years.
    by rewrite getitem_setitem_ne, !getitem_setitem_eq.
Qed.

Lemma clean_frame_witness :
  nrows scenario_cleaned = nrows scenario_comments
  /\ well_formed scenario_cleaned.
Proof.
  destruct (clean_frame scenario_files "comments.csv"
              scenario_comments scenario_cleaned)
    as (Hn & _ & _ & _ & Hwf); [vm_compute; reflexivity ..|].
  split; [exact Hn|]. apply Hwf. split.
  - by_computation.
  - repeat constructor.
Defined.

(** ** The outer join *)

Section Join.
Implicit Types (lk rk : Series) (k : cell) (i j : nat).

Lemma elem_of_positions k rk j j' :
  j' ∈ positions k rk j <-> exists m, j' = j + m /\ rk !! m = Some k.
Proof.
  revert j. induction rk as [|c rk IH]; intros j; simpl.
  - rewrite elem_of_nil. split; [done|]. by intros (m & _ & ?).
  - destruct (decide (c = k)) as [->|Hne].
    + rewrite elem_of_cons, IH. split.
      * intros [->|(m & -> & Hm)]; [exists 0 | exists (S m)]; split; (lia || done).
      * intros ([|m] & -> & Hm); [left; lia|]. right. exists m. split; [lia|done].
    + rewrite IH. split.
      * intros (m & -> & Hm). exists (S m). split; [lia|done].
      * intros ([|m] & -> & Hm); simpl in Hm; [congruence|].
        exists m. split; [lia|done].
Qed.


Lemma elem_of_left_block i (js : list nat) (p : option nat * option nat) :
  p ∈ left_block i js <->
  (js = [] /\ p = (Some i, None)) \/ (exists j, j ∈ js /\ p = (Some i, Some j)).
Proof.
  unfold left_block. destruct js as [|j0 js].
  - rewrite list_elem_of_singleton. split.
    + intros ->. by left.
    + intros [[_ ->]|(j & Hj & _)]; [done|]. by apply elem_of_nil in Hj.
  - rewrite list_elem_of_fmap. split.
    + intros (j & -> & Hj). right. by exists j.
    + intros [[? _]|(j & Hj & ->)]; [done|]. by exists j.
Qed.


Lemma positions_nil k rk : positions k rk 0 = [] <-> k ∉ rk.
Proof.
  split.
  - intros E (m & Hm)%list_elem_of_lookup.
    assert (Hin : m ∈ positions k rk 0)
      by (apply elem_of_positions; exists m; split; [lia|done]).
    rewrite E in Hin. by apply elem_of_nil in Hin.
  - intros Hk. apply elem_of_nil_inv. intros m (m' & _ & Hm)%elem_of_positions.
    apply Hk. by eapply list_elem_of_lookup_2.
Qed.

Lemma elem_of_left_indexers lk rk i (p : option nat * option nat) :
  p ∈ left_indexers lk rk i <->
  exists i' v, lk !! i' = Some v
    /\ ((exists j, rk !! j = Some v /\ p = (Some (i + i'), Some j))
        \/ ((v ∉ rk) /\ p = (Some (i + i'), None))).
Proof.
  revert i. induction lk as [|c lk IH]; intros i; simpl.
  - rewrite elem_of_nil. split; [done|]. by intros (i' & v & ? & _).
  - rewrite elem_of_app, IH, elem_of_left_block. split.
    + intros [[[E ->]|(j & Hj & ->)]|(i' & v & Hv & Hp)].
      * exists 0, c. split; [done|]. rewrite Nat.add_0_r. right.
        split; [by apply positions_nil | done].
      * exists 0, c. split; [done|]. rewrite Nat.add_0_r. left.
        apply elem_of_positions in Hj as (m & -> & Hm). exists m. by split.
      * exists (S i'), v. split; [done|].
        replace (i + S i') with (S i + i') by lia. exact Hp.
    + intros ([|i'] & v & Hv & Hp); simpl in Hv.
      * injection Hv as ->. left. rewrite Nat.add_0_r in Hp.
        destruct Hp as [(j & Hj & ->)|[Hnot ->]].
        -- right. exists j. split; [|done].
           apply elem_of_positions. exists j. split; [lia|done].
        -- left. split; [by apply positions_nil | done].
      * right. exists i', v. split; [done|].
        replace (S i + i') with (i + S i') by lia. exact Hp.
Qed.


Lemma elem_of_right_only lk rk j (p : option nat * option nat) :
  p ∈ right_only lk rk j <->
  exists m v, rk !! m = Some v /\ (v ∉ lk) /\ p = (None, Some (j + m)).
Proof.
  revert j. induction rk as [|c rk IH]; intros j; simpl.
  - rewrite elem_of_nil. split; [done|]. by intros (m & v & ? & _).
  - rewrite elem_of_app, IH. split.
    + intros [Hp|(m & v & Hv & Hn & ->)].
      * destruct (decide (c ∈ lk)); [by apply elem_of_nil in Hp|].
        apply list_elem_of_singleton in Hp as ->.
        exists 0, c. rewrite Nat.add_0_r. done.
      * exists (S m), v. repeat split; try done. do 2 f_equal. lia.
    + intros ([|m] & v & Hv & Hn & ->); simpl in Hv.
      * injection Hv as ->. left. rewrite decide_False by done.
        rewrite Nat.add_0_r. by apply list_elem_of_singleton.
      * right. exists m, v. repeat split; try done. do 2 f_equal. lia.
Qed.



Lemma insert_by_key_Permutation {A : Type} (key : A -> cell) (x : A) (l : list A) :
  insert_by_key key x l ≡ₚ x :: l.
Proof.
  induction l as [|y l IH]; [done|]. cbn [insert_by_key].
  destruct (cell_leb (key x) (key y)); [done|].
  rewrite IH. apply Permutation_swap.
Qed.

Lemma sort_by_key_Permutation {A : Type} (key : A -> cell) (l : list A) :
  sort_by_key key l ≡ₚ l.
Proof.
  unfold sort_by_key. induction l as [|x l IH]; [done|].
  cbn [foldr]. by rewrite insert_by_key_Permutation, IH.
Qed.

Lemma get_join_indexers_Permutation lk rk :
  get_join_indexers lk rk ≡ₚ join_pairs lk rk.
Proof. apply sort_by_key_Permutation. Qed.

Lemma elem_of_get_join_indexers lk rk (p : option nat * option nat) :
  p ∈ get_join_indexers lk rk
  <-> p ∈ left_indexers lk rk 0 \/ p ∈ right_only lk rk 0.
Proof.
  rewrite get_join_indexers_Permutation. unfold join_pairs. apply elem_of_app.
Qed.

Lemma length_get_join_indexers lk rk :
  length (get_join_indexers lk rk) = length (join_pairs lk rk).
Proof. by rewrite get_join_indexers_Permutation. Qed.


End Join.




Lemma str_replace_length (p : list item) (s s' : Series) :
  str_replace p s = Ok s' -> length s' = length s.
Proof.
  unfold str_replace. destruct (object_dtype s); [|discriminate].
  intros [= <-]. by rewrite length_fmap.
Qed.

Lemma normalized_comments_Ok (fs : files) (path : string) (comments : DataFrame) :
  normalized_comments fs path = Ok comments ->
  exists cleaned parent_id parent_clean_id,
    clean_comments fs path = Ok cleaned
    /\ getitem cleaned "parent_id" = Ok parent_id
    /\ str_replace parent_prefix_pattern parent_id = Ok parent_clean_id
    /\ comments = setitem cleaned "parent_clean_id" parent_clean_id.
Proof.
  unfold normalized_comments. intros H.
  apply bind_Ok in H as (cleaned & Hc & H).
  apply bind_Ok in H as (pid & Hp & H).
  apply bind_Ok in H as (pc & Hpc & [= <-]).
  by exists cleaned, pid, pc.
Qed.

Lemma normalized_comments_well_formed (fs : files) (path : string)
    (raw comments : DataFrame) :
  read_csv fs path = Ok raw -> normalized_comments fs path = Ok comments ->
  well_formed raw -> well_formed comments /\ nrows comments = nrows raw.
Proof.
  intros Hread Hn Hwf.
  apply normalized_comments_Ok in Hn as (cleaned & pid & pc & Hc & Hp & Hpc & ->).
  pose proof (clean_comments_well_formed _ _ _ _ Hread Hc Hwf) as Hwfc.
  split; [|rewrite nrows_setitem; by eapply clean_comments_nrows].
  apply well_formed_setitem; [done|].
  rewrite (str_replace_length _ _ _ Hpc). by eapply well_formed_getitem.
Qed.

(** The frame built by a successful [pd_merge]. *)
Lemma pd_merge_Ok (left right merged : DataFrame) (left_on right_on : string) :
  pd_merge left right left_on right_on = Ok merged ->
  exists lk rk,
    getitem left left_on = Ok lk
    /\ getitem right right_on = Ok rk
    /\ merged =
         let ix := get_join_indexers lk rk in
         mkDataFrame (length ix)
           (((fun c => (suffixed "_x" (labels right) c.1, take_rows ix.*1 c.2))
               <$> data left)
            ++ ((fun c => (suffixed "_y" (labels left) c.1, take_rows ix.*2 c.2))
                  <$> data right)
            ++ [("_merge", indicator <$> ix)]).
Proof.
  unfold pd_merge. intros H.
  apply bind_Ok in H as (lk & Hlk & H).
  apply bind_Ok in H as (rk & Hrk & H).
  destruct (incompatible lk rk); [discriminate|].
  case_bool_decide; [discriminate|].
  destruct (_ || _); [discriminate|].
  injection H as <-. by exists lk, rk.
Qed.

(** ** The Merger *)

(** C2. On the end-to-end scenario the code does not join the two rows:
    the parent identifier keeps its prefix, so the joined table has a
    left-only row for submission [s1] and a right-only row for comment
    [c1] (with [parent_clean_id] ["t3_s1"] and [year] 2023), and no row
    whose indicator is ["both"]. *)
Theorem scenario_rows_stay_apart :
  merge_submissions_comments scenario_files
    "submissions.csv" "comments.csv" "joined.csv"
  = Ok (scenario_merged, <["joined.csv" := scenario_merged]> scenario_files)
  /\ nrows scenario_merged = 2
  /\ getitem scenario_merged "submission_id" = Ok [CStr "s1"; CNaN]
  /\ getitem scenario_merged "parent_clean_id" = Ok [CNaN; CStr "t3_s1"]
  /\ getitem scenario_merged "year" = Ok [CNaN; CInt 2023]
  /\ getitem scenario_merged "_merge" = Ok [CStr "left_only"; CStr "right_only"]
  /\ (CStr "both" ∉ [CStr "left_only"; CStr "right_only"]).
Proof.
  split; [vm_compute; reflexivity|].
  repeat split; try (vm_compute; reflexivity). by_computation.
Qed.




(** The columns of a successful merge, row by row. *)
Section JoinedRows.
Context (subs comments : DataFrame) (ix : list (option nat * option nat)).

Let merged : DataFrame :=
  mkDataFrame (length ix)
    (filter (fun c => c.1 ∉ link_flair)
       (((fun c => (suffixed "_x" (labels comments) c.1, take_rows ix.*1 c.2))
           <$> data subs)
        ++ ((fun c => (suffixed "_y" (labels subs) c.1, take_rows ix.*2 c.2))
              <$> data comments)
        ++ [("_merge", indicator <$> ix)])).





End JoinedRows.



(** ** The Loader *)

Lemma length_remove_dups_le {A : Type} `{!EqDecision A} (l : list A) :
  length (remove_dups l) <= length l.
Proof.
  induction l as [|x l IH]; simpl; [done|].
  destruct (decide_rel elem_of x l); simpl; lia.
Qed.

Lemma sql_table_exact (db : database) (name : string) (t : DataFrame) :
  db !! name = Some t -> sql_table db name = Some t.
Proof. unfold sql_table. by intros ->. Qed.



Lemma sql_column_exact (t : DataFrame) (column : string) (s : Series) :
  getitem t column = Ok s -> sql_column t column = Ok s.
Proof. unfold sql_column. by intros ->. Qed.


Lemma sql_column_Err (t : DataFrame) (column : string) (e : error) :
  sql_column t column = Err e -> e = DatabaseError.
Proof.
  unfold sql_column. destruct (getitem t column); [discriminate|].
  destruct (filter _ (data t)); [|discriminate]. by intros [= <-].
Qed.

Lemma count_distinct_Ok (t : DataFrame) (column : string) (s : Series) :
  getitem t column = Ok s ->
  exists n, count_distinct t column = Ok n
    /\ (0 <= n <= Z.of_nat (length s))%Z /\ counts_distinct s n.
Proof.
  intros Hs. unfold count_distinct. rewrite (sql_column_exact _ _ _ Hs).
  eexists. split; [reflexivity|]. split.
  - pose proof (length_remove_dups_le (filter (fun c => c <> CNaN) s)).
    pose proof (length_filter (fun c => c <> CNaN) s). lia.
  - exists (remove_dups (filter (fun c => c <> CNaN) s)).
    split; [apply NoDup_remove_dups|]. split; [|done].
    intros x. rewrite elem_of_remove_dups, list_elem_of_filter. tauto.
Qed.

(** C7. On a store whose comment table has the two identifier columns,
    [count_posts_comments] returns two integers that are not negative:
    the number of different parent identifiers and the number of
    different comment identifiers (missing values apart), neither larger
    than the number of rows of the table. *)
Theorem count_posts_comments_bounds (db : database) (t : DataFrame)
    (parent_id comment_id : Series) :
  db !! "comment_table" = Some t ->
  well_formed t ->
  getitem t "parent_id" = Ok parent_id ->
  getitem t "comment_id" = Ok comment_id ->
  exists post_count comment_count : Z,
    count_posts_comments db = Ok (post_count, comment_count)
    /\ (0 <= post_count)%Z /\ (0 <= comment_count)%Z
    /\ counts_distinct parent_id post_count
    /\ counts_distinct comment_id comment_count
    /\ (post_count <= Z.of_nat (nrows t))%Z
    /\ (comment_count <= Z.of_nat (nrows t))%Z.
Proof.
  intros Hdb Hwf Hp Hc.
  destruct (count_distinct_Ok _ _ _ Hp) as (p & Hcp & Hpb & Hpd).
  destruct (count_distinct_Ok _ _ _ Hc) as (c & Hcc & Hcb & Hcd).
  rewrite (well_formed_getitem _ _ _ Hwf Hp) in Hpb.
  rewrite (well_formed_getitem _ _ _ Hwf Hc) in Hcb.
  exists p, c. unfold count_posts_comments.
  rewrite (sql_table_exact _ _ _ Hdb), Hcp, Hcc.
  repeat split; (done || lia).
Qed.

Lemma count_posts_comments_bounds_witness :
  exists post_count comment_count : Z,
    count_posts_comments old_database = Ok (post_count, comment_count)
    /\ (0 <= post_count)%Z /\ (0 <= comment_count)%Z
    /\ counts_distinct [CStr "s1"; CStr "t3_s2"; CStr "t1_c1"] post_count
    /\ counts_distinct [CStr "c1"; CStr "c2"; CStr "c3"] comment_count
    /\ (post_count <= Z.of_nat (nrows matching_comments))%Z
    /\ (comment_count <= Z.of_nat (nrows matching_comments))%Z.
Proof.
  apply (count_posts_comments_bounds old_database matching_comments).
  - vm_compute; reflexivity.
  - split; [by_computation | repeat constructor].
  - vm_compute; reflexivity.
  - vm_compute; reflexivity.
Defined.







(** * Further properties *)

(** ** The utility helpers *)

Lemma float_of_int_exact (n : Z) :
  (Z.abs n < 2 ^ 53)%Z -> Utils.float_of_int n = Ok (Utils.Finite (inject_Z n)).
Proof.
  intros Hn. unfold Utils.float_of_int.
  assert (He : Z.max 0 (Z.log2 (Z.abs n) - 52) = 0%Z).
  { destruct (Z.eq_dec (Z.abs n) 0%Z) as [->|Hz]; [reflexivity|].
    assert (Z.log2 (Z.abs n) < 53)%Z by (apply Z.log2_lt_pow2; lia). lia. }
  rewrite He. change (Z.to_pos (2 ^ 0)) with 1%positive.
  assert (Hr : Utils.round_half_even (Z.abs n # 1) = Z.abs n).
  { unfold Utils.round_half_even. cbn [Qnum Qden].
    rewrite Z.div_1_r, Z.mod_1_r. reflexivity. }
  rewrite Hr, Z.pow_0_r, Z.mul_1_r.
  assert (Hlt : (2 ^ 53 < 2 ^ 1024)%Z) by (apply Z.pow_lt_mono_r; lia).
  destruct (Z.leb_spec (2 ^ 1024) (Z.abs n)) as [Hge|_]; [lia|].
  do 3 f_equal. lia.
Qed.

(** X2. An integer amount below [2 ^ 53] in absolute value is printed
    with its own decimal digits followed by [".00"], after the symbol and,
    when it is negative, a minus sign. *)
Theorem format_currency_whole (n : Z) (currency : string) :
  (Z.abs n < 2 ^ 53)%Z ->
  Utils.format_currency (Utils.PyInt n) currency
  = Ok (Utils.symbol_of currency
          +:+ (if (n <? 0)%Z then "-" else "")
          +:+ Utils.decimal_of_Z (Z.abs n) +:+ ".00")%string.
Proof.
  intros Hn. unfold Utils.format_currency.
  rewrite (float_of_int_exact n Hn). cbn [bind Utils.format_2f].
  assert (Hr : Utils.round_half_even (inject_Z n * 100)%Q = (n * 100)%Z).
  { unfold Utils.round_half_even. cbn [inject_Z Qmult Qnum Qden Pos.mul].
    rewrite Z.div_1_r, Z.mod_1_r. reflexivity. }
  rewrite Hr. cbn [inject_Z Qnum].
  replace (Z.abs (n * 100)) with (Z.abs n * 100)%Z by lia.
  rewrite Z.div_mul, Z.mod_mul by lia. reflexivity.
Qed.

Lemma format_currency_whole_witness :
  Utils.format_currency (Utils.PyInt (-7)) "EUR"
  = Ok (Utils.symbol_of "EUR" +:+ "-" +:+ Utils.decimal_of_Z 7 +:+ ".00")%string.
Proof.
  apply (format_currency_whole (-7) "EUR"). vm_compute. reflexivity.
Defined.

(** X17. A finite float amount is printed as the symbol, a minus sign
    when it is negative, and a decimal number with exactly two digits
    after the point: the number it denotes, rounded to the nearest
    hundredth.  An infinite amount and a NaN are printed as a word,
    without any digit. *)
Theorem format_currency_float (currency : string) :
  (forall q : Q,
     exists (ip : string) (d1 d2 : ascii) (n : Z),
       Utils.format_currency (Utils.PyFloat (Utils.Finite q)) currency =
         Ok (Utils.symbol_of currency
               +:+ (if (Qnum q <? 0)%Z then "-" else "")
               +:+ ip +:+ "." +:+ String d1 (String d2 ""))%string
       /\ Utils.all_digits ip /\ Utils.is_digit d1 /\ Utils.is_digit d2
       /\ Utils.decimal_value ip = Some n
       /\ let v := (100 * n + 10 * Utils.digit_value d1 + Utils.digit_value d2)%Z in
          (Qabs (q * 100 - inject_Z (if (Qnum q <? 0)%Z then - v else v))
           <= 1 # 2)%Q)
  /\ Utils.format_currency (Utils.PyFloat (Utils.Infinity false)) currency
     = Ok (Utils.symbol_of currency +:+ "inf")%string
  /\ Utils.format_currency (Utils.PyFloat (Utils.Infinity true)) currency
     = Ok (Utils.symbol_of currency +:+ "-inf")%string
  /\ Utils.format_currency (Utils.PyFloat Utils.NaN) currency
     = Ok (Utils.symbol_of currency +:+ "nan")%string.
Proof.
  split; [|by repeat split].
  intros amount.
  set (cents := Utils.round_half_even (amount * 100)%Q).
  set (m := Z.abs cents).
  assert (Hm : (0 <= m)%Z) by (unfold m; lia).
  assert (Hr : (0 <= m mod 100 < 100)%Z) by (apply Z.mod_pos_bound; lia).
  exists (Utils.decimal_of_Z (m / 100)),
    (Utils.digit (m mod 100 / 10)), (Utils.digit (m mod 100 mod 10)), (m / 100)%Z.
  assert (H1 : (0 <= m mod 100 / 10 < 10)%Z).
  { split; [apply Z.div_pos; lia | apply Z.div_lt_upper_bound; lia]. }
  assert (H2 : (0 <= m mod 100 mod 10 < 10)%Z) by (apply Z.mod_pos_bound; lia).
  split; [reflexivity|].
  split; [apply decimal_of_Z_digits|].
  split; [by apply digit_is_digit|].
  split; [by apply digit_is_digit|].
  split; [apply decimal_of_Z_value; apply Z.div_pos; lia|].
  cbv zeta. rewrite !digit_value_digit by assumption.
  assert (Hv : (100 * (m / 100) + 10 * (m mod 100 / 10) + m mod 100 mod 10 = m)%Z).
  { pose proof (Z.div_mod m 100 ltac:(lia)).
    pose proof (Z.div_mod (m mod 100) 10 ltac:(lia)). lia. }
  rewrite Hv.
  pose proof (round_half_even_sign (amount * 100)%Q) as Hs. fold cents in Hs.
  assert (Hq : (Qnum (amount * 100) <? 0)%Z = (Qnum amount <? 0)%Z).
  { destruct amount as [a d]. simpl.
    destruct (a <? 0)%Z eqn:E; [apply Z.ltb_lt; apply Z.ltb_lt in E
                               | apply Z.ltb_ge; apply Z.ltb_ge in E]; lia. }
  rewrite Hq in Hs.
  assert (Hc : (if (Qnum amount <? 0)%Z then (- m)%Z else m) = cents).
  { destruct (Qnum amount <? 0)%Z; unfold m; lia. }
  rewrite Hc. apply round_half_even_nearest.
Qed.

(** ** Years *)

Lemma ord2year_correct (y n : Z) :
  (days_before_year y <= n < days_before_year (y + 1))%Z ->
  ord2year (n + 1) = y.
Proof.
  unfold days_before_year, ord2year. cbv zeta.
  replace (n + 1 - 1)%Z with n by lia. replace (y + 1 - 1)%Z with y by lia.
  intros H.
  destruct (Z.eqb_spec (n mod 146097 mod 36524 mod 1461 / 365) 4);
    destruct (Z.eqb_spec (n mod 146097 / 36524) 4); cbn [orb];
    Z.div_mod_to_equations; lia.
Qed.

Lemma ord2year_range (n : Z) :
  (days_before_year (ord2year (n + 1)) <= n
   < days_before_year (ord2year (n + 1) + 1))%Z.
Proof.
  unfold days_before_year, ord2year. cbv zeta.
  replace (n + 1 - 1)%Z with n by lia.
  destruct (Z.eqb_spec (n mod 146097 mod 36524 mod 1461 / 365) 4);
    destruct (Z.eqb_spec (n mod 146097 / 36524) 4); cbn [orb];
    Z.div_mod_to_equations; lia.
Qed.

(** X3. The year derived from an epoch time is the Gregorian calendar
    year that contains it: [year_of_epoch t] is [y] exactly when [t] lies
    between the first second of year [y] and the first second of year
    [y + 1] in UTC. *)
Theorem year_of_epoch_correct (y t : Z) :
  year_of_epoch t = y <-> (epoch_of_year y <= t < epoch_of_year (y + 1))%Z.
Proof.
  unfold year_of_epoch, epoch_of_year.
  replace (t / 86400 + 719163)%Z with ((t / 86400 + 719162) + 1)%Z by lia.
  split.
  - intros <-. pose proof (ord2year_range (t / 86400 + 719162)) as H.
    set (Y := ord2year (t / 86400 + 719162 + 1)) in *. clearbody Y.
    Z.div_mod_to_equations; lia.
  - intros H. apply ord2year_correct. Z.div_mod_to_equations; lia.
Qed.

(** ** The Cleaner, continued *)

Lemma mapM_fromtimestamp_ints (zs : list Z) :
  Forall (fun z => (- ns_bound <= z <= ns_bound)%Z) zs ->
  mapM fromtimestamp (CInt <$> zs) = Ok (CTime <$> zs).
Proof.
  induction 1 as [|z zs Hz _ IH]; [done|].
  rewrite !fmap_cons. cbn [mapM]. rewrite IH. unfold ns_bound in Hz.
  unfold fromtimestamp, min_epoch, max_epoch.
  destruct (Z.leb_spec (-62135596800) z); [|lia].
  destruct (Z.leb_spec z 253402300799); [|lia]. reflexivity.
Qed.

Lemma forallb_is_timestamp (zs : list Z) :
  Forall (fun z => (- ns_bound <= z <= ns_bound)%Z) zs ->
  forallb is_timestamp (CTime <$> zs) = true.
Proof.
  induction 1 as [|z zs Hz _ IH]; [done|].
  rewrite fmap_cons. cbn [forallb is_timestamp]. rewrite IH.
  destruct (Z.leb_spec (- ns_bound) z); [|lia].
  destruct (Z.leb_spec z ns_bound); [|lia]. reflexivity.
Qed.

Lemma getitem_after_flair_drop (inp : DataFrame) :
  getitem (mkDataFrame (nrows inp)
             (filter (fun c => c.1 ∉ author_flair) (data inp))) "created_utc"
  = getitem inp "created_utc".
Proof.
  rewrite getitem_filter with (m := nrows inp).
  - apply getitem_data.
  - by_computation.
Qed.

(** X4. [clean_comments] succeeds on every readable table that has rows
    and whose [created_utc] values are integers within the range of
    64-bit nanosecond timestamps; the columns [created_time] and [year]
    of the result then hold, row by row, the timestamp of that epoch
    second and its calendar year. *)
Theorem clean_comments_succeeds (fs : files) (path : string)
    (inp : DataFrame) (zs : list Z) :
  read_csv fs path = Ok inp ->
  getitem inp "created_utc" = Ok (CInt <$> zs) ->
  zs <> [] ->
  Forall (fun z => (- ns_bound <= z <= ns_bound)%Z) zs ->
  exists out,
    clean_comments fs path = Ok out
    /\ getitem out "created_time" = Ok (CTime <$> zs)
    /\ getitem out "year" = Ok ((fun z => CInt (year_of_epoch z)) <$> zs).
Proof.
  intros Hread Hutc Hne Hzs. unfold clean_comments.
  rewrite Hread. cbn [bind]. rewrite drop_Ignore. cbn [bind].
  rewrite getitem_after_flair_drop, Hutc. cbn [bind].
  unfold series_apply. rewrite (mapM_fromtimestamp_ints _ Hzs). cbn [bind].
  rewrite getitem_setitem_eq. cbn [bind].
  assert (Hyear : dt_year (CTime <$> zs)
                  = Ok ((fun z => CInt (year_of_epoch z)) <$> zs)).
  { unfold dt_year. rewrite (forallb_is_timestamp _ Hzs).
    destruct zs as [|z zs]; [done|]. by rewrite <- list_fmap_compose. }
  rewrite Hyear. cbn [bind]. eexists. split; [reflexivity|].
  by rewrite getitem_setitem_ne, !getitem_setitem_eq.
Qed.

Lemma clean_comments_succeeds_witness :
  exists out,
    clean_comments matching_files "comments.csv" = Ok out
    /\ getitem out "created_time"
       = Ok (CTime <$> [1700000000; 1700000001; 1700000002]%Z)
    /\ getitem out "year"
       = Ok ((fun z => CInt (year_of_epoch z))
               <$> [1700000000; 1700000001; 1700000002]%Z).
Proof.
  apply (clean_comments_succeeds matching_files "comments.csv" matching_comments).
  - vm_compute; reflexivity.
  - vm_compute; reflexivity.
  - discriminate.
  - repeat constructor; vm_compute; discriminate.
Defined.

(** X5. A table without rows is not cleaned: the column assigned to
    [created_time] is then not a column of timestamps, and taking its
    years raises [AttributeError]. *)
Theorem clean_comments_no_rows (fs : files) (path : string) (inp : DataFrame) :
  read_csv fs path = Ok inp ->
  getitem inp "created_utc" = Ok [] ->
  clean_comments fs path = Err AttributeError.
Proof.
  intros Hread Hutc. unfold clean_comments.
  rewrite Hread. cbn [bind]. rewrite drop_Ignore. cbn [bind].
  rewrite getitem_after_flair_drop, Hutc. cbn [bind series_apply mapM].
  by rewrite getitem_setitem_eq.
Qed.

Lemma clean_comments_no_rows_witness :
  clean_comments (<["c.csv" := header_only_comments]> ∅) "c.csv"
  = Err AttributeError.
Proof.
  apply (clean_comments_no_rows _ "c.csv" header_only_comments);
    vm_compute; reflexivity.
Defined.

(** ** The Merger, continued *)

(** The steps of a successful run of [merge_submissions_comments]. *)
Lemma merge_submissions_comments_Ok (fs : files)
    (sub_path comment_path output_path : string)
    (merged : DataFrame) (fs' : files) :
  merge_submissions_comments fs sub_path comment_path output_path
    = Ok (merged, fs') ->
  exists subs comments lk rk,
    read_csv fs sub_path = Ok subs
    /\ normalized_comments fs comment_path = Ok comments
    /\ getitem subs "submission_id" = Ok lk
    /\ getitem comments "parent_clean_id" = Ok rk
    /\ fs' = <[output_path := merged]> fs
    /\ merged =
         let ix := get_join_indexers lk rk in
         mkDataFrame (length ix)
           (filter (fun c => c.1 ∉ link_flair)
              (((fun c => (suffixed "_x" (labels comments) c.1, take_rows ix.*1 c.2))
                  <$> data subs)
               ++ ((fun c => (suffixed "_y" (labels subs) c.1, take_rows ix.*2 c.2))
                     <$> data comments)
               ++ [("_merge", indicator <$> ix)])).
Proof.
  unfold merge_submissions_comments. intros H.
  apply bind_Ok in H as (subs & Hsubs & H).
  apply bind_Ok in H as (comments & Hnorm & H).
  apply bind_Ok in H as (joined & Hjoin & H).
  rewrite drop_Ignore in H. cbn [bind] in H. injection H as <- <-.
  apply pd_merge_Ok in Hjoin as (lk & rk & Hlk & Hrk & ->).
  by exists subs, comments, lk, rk.
Qed.

Lemma str_replace_Ok (p : list item) (s s' : Series) :
  str_replace p s = Ok s' ->
  s' = (fun c => match c with CStr x => CStr (re_delete p x) | _ => CNaN end) <$> s.
Proof.
  unfold str_replace. destruct (object_dtype s); [|discriminate]. by intros [= <-].
Qed.

(** X6. The column [parent_clean_id] is a copy of [parent_id] whenever
    the parent identifiers are strings without a backslash, as Reddit
    identifiers are: the substitution of the Merger strips nothing from
    them. *)
Theorem parent_clean_id_unchanged (fs : files) (path : string)
    (comments : DataFrame) (parent_id : Series) :
  normalized_comments fs path = Ok comments ->
  getitem comments "parent_id" = Ok parent_id ->
  Forall (fun c => exists x, c = CStr x /\ ("\"%char ∉ list_ascii_of_string x))
         parent_id ->
  getitem comments "parent_clean_id" = Ok parent_id.
Proof.
  intros Hnorm Hpid Hall.
  apply normalized_comments_Ok in Hnorm as (cleaned & pid & pc & _ & Hp & Hpc & ->).
  rewrite getitem_setitem_ne in Hpid by done.
  rewrite Hp in Hpid. injection Hpid as ->.
  rewrite getitem_setitem_eq. f_equal.
  apply str_replace_Ok in Hpc as ->. clear Hp.
  induction Hall as [|c l (x & -> & Hx) _ IH]; [done|].
  rewrite fmap_cons, IH. f_equal. f_equal.
  by apply normalize_without_backslash.
Qed.

Lemma parent_clean_id_unchanged_witness :
  getitem matching_normalized "parent_clean_id"
  = Ok [CStr "s1"; CStr "t3_s2"; CStr "t1_c1"].
Proof.
  apply (parent_clean_id_unchanged matching_files "comments.csv").
  - vm_compute; reflexivity.
  - vm_compute; reflexivity.
  - repeat constructor; eexists; (split; [reflexivity | by_computation]).
Defined.

(** X7. What the Merger needs from its inputs.  With readable
    submissions and cleanable comments, the merge raises [KeyError] when
    the comments have no column [parent_id], [AttributeError] when that
    column holds no string (numbers or missing values only), and
    [KeyError] when the comments are fine but the submissions have no
    column [submission_id]. *)
Theorem merge_input_errors (fs : files)
    (sub_path comment_path output_path : string) (subs cleaned : DataFrame) :
  read_csv fs sub_path = Ok subs ->
  clean_comments fs comment_path = Ok cleaned ->
  ("parent_id" ∉ labels cleaned ->
     merge_submissions_comments fs sub_path comment_path output_path
     = Err (KeyError "parent_id"))
  /\ (forall parent_id,
        getitem cleaned "parent_id" = Ok parent_id ->
        parent_id <> [] -> Forall (fun c => is_str c = false) parent_id ->
        merge_submissions_comments fs sub_path comment_path output_path
        = Err AttributeError)
  /\ (forall comments,
        normalized_comments fs comment_path = Ok comments ->
        "submission_id" ∉ labels subs ->
        merge_submissions_comments fs sub_path comment_path output_path
        = Err (KeyError "submission_id")).
Proof.
  intros Hsubs Hclean. unfold merge_submissions_comments.
  rewrite Hsubs. cbn [bind]. split; [|split].
  - intros Hmiss. unfold normalized_comments. rewrite Hclean. cbn [bind].
    by rewrite (getitem_missing _ _ Hmiss).
  - intros pid Hpid Hne Hall. unfold normalized_comments.
    rewrite Hclean. cbn [bind]. rewrite Hpid. cbn [bind].
    assert (Hobj : object_dtype pid = false).
    { destruct pid as [|c pid]; [done|]. unfold object_dtype.
      apply not_true_is_false. intros (x & Hx & Hs)%existsb_exists.
      apply list_elem_of_In in Hx.
      pose proof (proj1 (Forall_forall _ _) Hall x Hx). congruence. }
    unfold str_replace. by rewrite Hobj.
  - intros comments Hnorm Hmiss. rewrite Hnorm. cbn [bind].
    unfold pd_merge. by rewrite (getitem_missing _ _ Hmiss).
Qed.

Lemma merge_input_errors_witness :
  merge_submissions_comments
    (<["s.csv" := scenario_submissions]> (<["c.csv" := numeric_parent_comments]> ∅))
    "s.csv" "c.csv" "o.csv" = Err AttributeError
  /\ merge_submissions_comments
       (<["s.csv" := untitled_submissions]> (<["c.csv" := matching_comments]> ∅))
       "s.csv" "c.csv" "o.csv" = Err (KeyError "submission_id").
Proof.
  split.
  - destruct (merge_input_errors
                (<["s.csv" := scenario_submissions]>
                   (<["c.csv" := numeric_parent_comments]> ∅))
                "s.csv" "c.csv" "o.csv" scenario_submissions
                (setitem (setitem numeric_parent_comments "created_time"
                            [CTime 1700000000; CTime 1700000001])
                   "year" [CInt 2023; CInt 2023]))
      as (_ & H & _); [vm_compute; reflexivity ..|].
    apply (H [CInt 11; CInt 12]);
      [vm_compute; reflexivity | discriminate | repeat constructor].
  - destruct (merge_input_errors
                (<["s.csv" := untitled_submissions]>
                   (<["c.csv" := matching_comments]> ∅))
                "s.csv" "c.csv" "o.csv" untitled_submissions
                (setitem (setitem matching_comments "created_time"
                            [CTime 1700000000; CTime 1700000001; CTime 1700000002])
                   "year" [CInt 2023; CInt 2023; CInt 2023]))
      as (_ & _ & H); [vm_compute; reflexivity ..|].
    apply (H matching_normalized); [vm_compute; reflexivity | by_computation].
Defined.

(** *** Counting the joined rows *)

Section JoinCount.
Implicit Types (lk rk : Series) (k c : cell) (i j : nat).

Lemma left_row_in_indexers lk rk i v :
  lk !! i = Some v -> exists oj, (Some i, oj) ∈ get_join_indexers lk rk.
Proof.
  intros Hv. destruct (decide (v ∈ rk)) as [[j Hj]%list_elem_of_lookup|Hnot].
  - exists (Some j). apply elem_of_get_join_indexers. left.
    apply elem_of_left_indexers.
    exists i, v. split; [done|]. left. exists j. by split.
  - exists None. apply elem_of_get_join_indexers. left.
    apply elem_of_left_indexers.
    exists i, v. split; [done|]. right. by split.
Qed.

Lemma right_row_in_indexers lk rk j v :
  rk !! j = Some v -> exists oi, (oi, Some j) ∈ get_join_indexers lk rk.
Proof.
  intros Hv. destruct (decide (v ∈ lk)) as [[i Hi]%list_elem_of_lookup|Hnot].
  - exists (Some i). apply elem_of_get_join_indexers. left.
    apply elem_of_left_indexers.
    exists i, v. split; [done|]. left. exists j. by split.
  - exists None. apply elem_of_get_join_indexers. right.
    apply elem_of_right_only.
    exists j, v. by repeat split.
Qed.

Lemma seq_le_length {A : Type} (n : nat) (l : list A) (f : A -> option nat) :
  (forall i, i < n -> exists x, x ∈ l /\ f x = Some i) -> n <= length l.
Proof.
  intros H. rewrite <- (length_seq n 0), <- (length_fmap Some (seq 0 n)).
  rewrite <- (length_fmap f l). apply submseteq_length, NoDup_submseteq.
  - apply NoDup_fmap_2; [|apply NoDup_seq]. by intros ? ? [= ->].
  - intros o (i & -> & Hi%elem_of_seq)%list_elem_of_fmap.
    destruct (H i) as (x & Hx & <-); [lia|]. by apply list_elem_of_fmap_2.
Qed.

Lemma length_get_join_indexers_ge lk rk :
  length lk <= length (get_join_indexers lk rk)
  /\ length rk <= length (get_join_indexers lk rk).
Proof.
  split.
  - apply (seq_le_length _ _ fst). intros i [v Hv]%lookup_lt_is_Some_2.
    destruct (left_row_in_indexers lk rk i v Hv) as [oj Hin]. by exists (Some i, oj).
  - apply (seq_le_length _ _ snd). intros j [v Hv]%lookup_lt_is_Some_2.
    destruct (right_row_in_indexers lk rk j v Hv) as [oi Hin]. by exists (oi, Some j).
Qed.

Lemma length_positions k rk j :
  length (positions k rk j) = length (filter (fun r => r = k) rk).
Proof.
  revert j. induction rk as [|c rk IH]; intros j; [done|].
  cbn [positions]. rewrite filter_cons.
  destruct (decide (c = k)); simpl; by rewrite IH.
Qed.

Lemma length_left_block i (js : list nat) :
  length (left_block i js) = if decide (js = []) then 1 else length js.
Proof.
  unfold left_block. destruct js as [|j0 js]; [done|].
  rewrite decide_False by done. by rewrite length_fmap.
Qed.

Lemma filter_eq_nil_not_elem k rk : filter (fun r => r = k) rk = [] <-> k ∉ rk.
Proof.
  split.
  - intros E Hk. assert (Hin : k ∈ filter (fun r => r = k) rk)
      by (by apply list_elem_of_filter).
    rewrite E in Hin. by apply elem_of_nil in Hin.
  - intros Hk. apply elem_of_nil_inv. intros x [-> Hx]%list_elem_of_filter. done.
Qed.

Lemma length_left_indexers lk rk i :
  length (left_indexers lk rk i)
  = length (filter (fun c => c ∉ rk) lk) + total_matches lk rk.
Proof.
  revert i. unfold total_matches.
  induction lk as [|c lk IH]; intros i; [done|].
  cbn [left_indexers]. rewrite length_app, IH, length_left_block.
  rewrite filter_cons, fmap_cons. cbn [sum_list].
  pose proof (length_positions c rk 0) as Hlen.
  destruct (decide (c ∉ rk)) as [Hc|Hc].
  - rewrite (proj2 (positions_nil c rk) Hc) in *. rewrite decide_True by done.
    simpl in *. lia.
  - rewrite decide_False; [simpl; lia|].
    intros E. by apply positions_nil in E.
Qed.

Lemma length_right_only lk rk j :
  length (right_only lk rk j) = length (filter (fun r => r ∉ lk) rk).
Proof.
  revert j. induction rk as [|c rk IH]; intros j; [done|].
  cbn [right_only]. rewrite length_app, IH, filter_cons.
  destruct (decide (c ∈ lk)) as [Hc|Hc].
  - by rewrite decide_False by (by intros ?).
  - by rewrite decide_True.
Qed.

Lemma total_matches_NoDup lk rk :
  NoDup lk -> total_matches lk rk = length (filter (fun r => r ∈ lk) rk).
Proof.
  unfold total_matches. induction 1 as [|c lk Hc _ IH].
  - simpl. symmetry. apply length_zero_iff_nil, elem_of_nil_inv.
    intros x [Hx _]%list_elem_of_filter. by apply elem_of_nil in Hx.
  - rewrite fmap_cons. cbn [sum_list]. rewrite IH. clear IH.
    induction rk as [|r rk IHrk]; [done|]. unfold id in *.
    rewrite !filter_cons.
    destruct (decide (r = c)) as [->|Hne].
    + rewrite (decide_False (P := c ∈ lk)) by done.
      rewrite (decide_True (P := c ∈ c :: lk)) by left.
      simpl. lia.
    + destruct (decide (r ∈ lk)) as [Hr|Hr].
      * rewrite (decide_True (P := r ∈ c :: lk)) by (by right). simpl. lia.
      * rewrite (decide_False (P := r ∈ c :: lk)); [lia|].
        by intros [?|?]%elem_of_cons.
Qed.

Lemma length_filter_split {A : Type} (P : A -> Prop)
    `{!forall x, Decision (P x)} (l : list A) :
  length (filter P l) + length (filter (fun x => ~ P x) l) = length l.
Proof.
  induction l as [|x l IH]; [done|].
  rewrite !filter_cons. destruct (decide (P x)) as [Hx|Hx].
  - rewrite decide_False by (by intros ?). simpl. lia.
  - rewrite decide_True by done. simpl. lia.
Qed.

Lemma length_get_join_indexers_NoDup lk rk :
  NoDup lk ->
  length (get_join_indexers lk rk)
  = length rk + length (filter (fun c => c ∉ rk) lk).
Proof.
  intros Hnd. rewrite length_get_join_indexers. unfold join_pairs.
  rewrite length_app, length_left_indexers, length_right_only,
    (total_matches_NoDup _ _ Hnd).
  pose proof (length_filter_split (fun r => r ∈ lk) rk). lia.
Qed.

End JoinCount.

(** X8. The joined table has at least as many rows as the submissions
    and at least as many rows as the comments. *)
Theorem merged_rows_at_least (fs : files)
    (sub_path comment_path output_path : string)
    (subs raw merged : DataFrame) (fs' : files) :
  read_csv fs sub_path = Ok subs -> well_formed subs ->
  read_csv fs comment_path = Ok raw -> well_formed raw ->
  merge_submissions_comments fs sub_path comment_path output_path
    = Ok (merged, fs') ->
  nrows subs <= nrows merged /\ nrows raw <= nrows merged.
Proof.
  intros Hsubs Hwfs Hraw Hwfr Hmerge.
  apply merge_submissions_comments_Ok in Hmerge
    as (subs' & comments & lk & rk & Hsubs' & Hnorm & Hlk & Hrk & _ & ->).
  rewrite Hsubs in Hsubs'. injection Hsubs' as <-.
  destruct (normalized_comments_well_formed _ _ _ _ Hraw Hnorm Hwfr) as [Hwfc <-].
  rewrite <- (well_formed_getitem _ _ _ Hwfs Hlk),
    <- (well_formed_getitem _ _ _ Hwfc Hrk).
  cbn [nrows]. apply length_get_join_indexers_ge.
Qed.

Lemma merged_rows_at_least_witness :
  nrows matching_submissions <= nrows matching_merged
  /\ nrows matching_comments <= nrows matching_merged.
Proof.
  apply (merged_rows_at_least matching_files
           "submissions.csv" "comments.csv" "joined.csv"
           matching_submissions matching_comments matching_merged
           (<["joined.csv" := matching_merged]> matching_files)).
  - vm_compute; reflexivity.
  - split; [by_computation | repeat constructor].
  - vm_compute; reflexivity.
  - split; [by_computation | repeat constructor].
  - vm_compute; reflexivity.
Defined.

(** X9. When no two submissions share an identifier, no comment is
    repeated by the join: the joined table has one row for each comment
    and one more for each submission that no comment refers to. *)
Theorem merged_rows_unique_ids (fs : files)
    (sub_path comment_path output_path : string)
    (subs comments merged : DataFrame) (fs' : files) (lk rk : Series) :
  read_csv fs sub_path = Ok subs ->
  normalized_comments fs comment_path = Ok comments ->
  getitem subs "submission_id" = Ok lk ->
  getitem comments "parent_clean_id" = Ok rk ->
  merge_submissions_comments fs sub_path comment_path output_path
    = Ok (merged, fs') ->
  NoDup lk ->
  nrows merged = length rk + length (filter (fun c => c ∉ rk) lk).
Proof.
  intros Hsubs Hnorm Hlk Hrk Hmerge Hnd.
  apply merge_submissions_comments_Ok in Hmerge
    as (subs' & comments' & lk' & rk' & Hsubs' & Hnorm' & Hlk' & Hrk' & _ & ->).
  rewrite Hsubs in Hsubs'. injection Hsubs' as <-.
  rewrite Hnorm in Hnorm'. injection Hnorm' as <-.
  rewrite Hlk in Hlk'. injection Hlk' as <-.
  rewrite Hrk in Hrk'. injection Hrk' as <-.
  cbn [nrows]. by apply length_get_join_indexers_NoDup.
Qed.

Lemma merged_rows_unique_ids_witness : nrows matching_merged = 4.
Proof.
  rewrite (merged_rows_unique_ids matching_files
             "submissions.csv" "comments.csv" "joined.csv"
             matching_submissions matching_normalized matching_merged
             (<["joined.csv" := matching_merged]> matching_files)
             [CStr "s1"; CStr "s2"] [CStr "s1"; CStr "t3_s2"; CStr "t1_c1"]);
    try (vm_compute; reflexivity).
  by_computation.
Defined.






(** ** The Loader, continued *)









Lemma remove_dups_NoDup {A : Type} `{!EqDecision A} (l : list A) :
  length (remove_dups l) = length l <-> NoDup l.
Proof.
  induction l as [|x l IH]; [by split; [constructor|]|].
  cbn [remove_dups length]. pose proof (length_remove_dups_le l) as Hle.
  destruct (decide_rel elem_of x l) as [Hx|Hx].
  - split; [lia|]. by intros [? _]%NoDup_cons.
  - cbn [length]. rewrite NoDup_cons. split.
    + intros [= Hlen]. split; [done|]. by apply IH.
    + intros [_ Hnd]. f_equal. by apply IH.
Qed.

Lemma length_filter_all {A : Type} (P : A -> Prop)
    `{!forall x, Decision (P x)} (l : list A) :
  length (filter P l) = length l <-> Forall P l.
Proof.
  split.
  - intros Hlen. apply Forall_forall. intros x Hx.
    destruct (decide (P x)) as [|Hn]; [done|].
    pose proof (length_filter_lt P l x Hx Hn). lia.
  - intros Hall. by rewrite filter_all.
Qed.

(** X15. The count of a column equals the number of rows exactly when
    the column has no missing value and no value twice; so the comment
    count is the row count exactly when the comment identifiers are
    present and unique. *)
Theorem count_distinct_all_rows (t : DataFrame) (column : string) (s : Series) :
  getitem t column = Ok s ->
  (count_distinct t column = Ok (Z.of_nat (length s))
   <-> NoDup s /\ (CNaN ∉ s)).
Proof.
  intros Hs. unfold count_distinct. rewrite (sql_column_exact _ _ _ Hs).
  pose proof (length_remove_dups_le (filter (fun c => c <> CNaN) s)) as H1.
  pose proof (length_filter (fun c => c <> CNaN) s) as H2.
  split.
  - intros [= H%Nat2Z.inj].
    assert (Hall : Forall (fun c => c <> CNaN) s)
      by (apply (proj1 (length_filter_all _ _)); lia).
    rewrite (filter_all _ _ Hall) in H. split.
    + by apply remove_dups_NoDup.
    + intros Hin. by apply (proj1 (Forall_forall _ _) Hall CNaN Hin).
  - intros [Hnd Hnan].
    assert (Hall : Forall (fun c => c <> CNaN) s).
    { apply Forall_forall. by intros x Hx ->. }
    rewrite (filter_all _ _ Hall).
    by rewrite (proj2 (remove_dups_NoDup s) Hnd).
Qed.

Lemma count_distinct_all_rows_witness :
  count_distinct matching_comments "comment_id" = Ok 3%Z
  /\ count_distinct repeated_comments "comment_id" <> Ok 3%Z.
Proof.
  split.
  - apply (count_distinct_all_rows matching_comments "comment_id"
             [CStr "c1"; CStr "c2"; CStr "c3"]); [vm_compute; reflexivity|].
    split; by_computation.
  - intros H.
    apply (count_distinct_all_rows repeated_comments "comment_id"
             [CStr "c1"; CStr "c1"; CNaN]) in H as [_ H];
      [|vm_compute; reflexivity].
    apply H. by_computation.
Defined.

(** ** The driver *)



